(** * V-EA-LongerTrends: the tick handler of the expert advisor

    A shallow embedding of [V-EA-LongerTrends.cpp] (MQL5).  The expert is one
    routine, [OnTick], that reads indicator buffers and prices from the
    terminal and sends trade requests through [CTrade].  The terminal is
    modelled by what it answers during one tick ([Terminal]); what the expert
    does is the ordered list of its calls with an effect ([Event]); a read
    past the end of a dynamic array is MQL5's critical error
    "array out of range", which stops the program ([ArrayOutOfRange]).

    [double] is binary64: the kernel's primitive floats, rounding included. *)

From Stdlib Require Import ZArith List String Bool Lia Sorted.
From Stdlib Require Import Floats.
From Stdlib Require Uint63.
Import ListNotations.

Set Warnings "-inexact-float".
Local Open Scope Z_scope.
Local Open Scope float_scope.

(** ** Scalar types of MQL5 *)

Module MQL.

(** [int] is 32 bits and [long]/[datetime] 64 bits, two's complement. *)
Definition wrap (bits : Z) (z : Z) : Z :=
  ((z + 2 ^ (bits - 1)) mod 2 ^ bits - 2 ^ (bits - 1))%Z.

Definition to_int (z : Z) : Z := wrap 32 z.
Definition to_long (z : Z) : Z := wrap 64 z.

(** Implicit conversion [int -> double]; exact, an [int] has 32 bits. *)
Definition int_to_double (z : Z) : float :=
  if (z <? 0)%Z then - PrimFloat.of_uint63 (Uint63.of_Z (- z))
  else PrimFloat.of_uint63 (Uint63.of_Z z).

Definition INVALID_HANDLE : Z := (-1)%Z.

End MQL.

Inductive ENUM_TIMEFRAMES := PERIOD_H1 | PERIOD_D1.
Inductive ENUM_POSITION_TYPE := POSITION_TYPE_BUY | POSITION_TYPE_SELL.
Inductive ENUM_INIT_RETCODE := INIT_SUCCEEDED | INIT_FAILED.

(** ** Input parameters (lines 13-27) *)

Record Inputs := {
  InpLotSize : float;
  InpStopLoss : Z;
  InpTakeProfit : Z;
  InpTrendPeriod : Z;
  InpRSIPeriod : Z;
  InpRSIUpperLevel : float;
  InpRSILowerLevel : float;
  InpMACDFastPeriod : Z;
  InpMACDSlowPeriod : Z;
  InpMACDSignalPeriod : Z;
  InpRSIExitLevel : float;
  InpTrendExitPeriod : Z;
  InpATRMultiplier : float;
  InpATRPeriod : Z;
  InpMinHoldDuration : Z
}.

Definition defaults : Inputs := {|
  InpLotSize := 0.1;
  InpStopLoss := 50;
  InpTakeProfit := 100;
  InpTrendPeriod := 20;
  InpRSIPeriod := 8;
  InpRSIUpperLevel := 60;
  InpRSILowerLevel := 40;
  InpMACDFastPeriod := 12;
  InpMACDSlowPeriod := 26;
  InpMACDSignalPeriod := 9;
  InpRSIExitLevel := 50;
  InpTrendExitPeriod := 100;
  InpATRMultiplier := 3.0;
  InpATRPeriod := 14;
  InpMinHoldDuration := 60
|}.

(** ** The terminal, as seen during one tick *)

(** What [PositionSelect(_Symbol)] copies into the program: the fields the
    expert reads afterwards with [PositionGetInteger]/[PositionGetDouble]. *)
Record Position := {
  POSITION_TYPE : ENUM_POSITION_TYPE;
  POSITION_SL : float;
  POSITION_TP : float;
  POSITION_TIME : Z
}.

(** Every call is on [_Symbol]; the moving averages are all
    [0, MODE_EMA, PRICE_CLOSE] and the oscillators [PRICE_CLOSE], so those
    arguments are left out.  [iMA], [iRSI], [iMACD] and [iATR] return an
    indicator handle (an [int]), as lines 42-47 and 147-151 use them.
    [CopyBuffer handle buffer start count] is the dynamic array after the
    call, indexed as a series (index 0 is the newest sample): the copied
    samples, fewer than [count] or none at all when the call falls short.
    [PositionSelect] is the answer at line 137. *)
Record Terminal := {
  SYMBOL_BID : float;
  SYMBOL_ASK : float;
  SYMBOL_POINT : float;
  iMA : ENUM_TIMEFRAMES -> Z -> Z;
  iRSI : ENUM_TIMEFRAMES -> Z -> Z;
  iMACD : ENUM_TIMEFRAMES -> Z -> Z -> Z -> Z;
  iATR : ENUM_TIMEFRAMES -> Z -> Z;
  CopyBuffer : Z -> Z -> Z -> Z -> list float;
  iTime : ENUM_TIMEFRAMES -> Z -> Z;
  TimeCurrent : Z;
  PositionSelect : option Position
}.

(** The same tick with another answer to [PositionSelect]. *)
Definition with_position (p : option Position) (t : Terminal) : Terminal := {|
  SYMBOL_BID := SYMBOL_BID t;
  SYMBOL_ASK := SYMBOL_ASK t;
  SYMBOL_POINT := SYMBOL_POINT t;
  iMA := iMA t;
  iRSI := iRSI t;
  iMACD := iMACD t;
  iATR := iATR t;
  CopyBuffer := CopyBuffer t;
  iTime := iTime t;
  TimeCurrent := TimeCurrent t;
  PositionSelect := p
|}.

(** ** Global variables (lines 30-33) and the static of [OnTick] (line 106) *)

Record Globals := {
  trendHandle : Z;
  rsiHandle : Z;
  macdHandle : Z;
  atrHandle : Z;
  prevBarTime : Z
}.

Definition set_prevBarTime (b : Z) (g : Globals) : Globals := {|
  trendHandle := trendHandle g;
  rsiHandle := rsiHandle g;
  macdHandle := macdHandle g;
  atrHandle := atrHandle g;
  prevBarTime := b
|}.

(** ** Effects *)

Inductive PrintArg :=
| Str (s : string)
| Dbl (d : float).

(** [Buy], [Sell], [PositionClose] and [PositionModify] are the methods of
    [CTrade] the expert calls (always on [_Symbol]). *)
Inductive Event :=
| Buy (volume price sl tp : float) (comment : string)
| Sell (volume price sl tp : float) (comment : string)
| PositionClose
| PositionModify (sl tp : float)
| Print (msg : list PrintArg)
| IndicatorRelease (handle : Z).

Inductive Status (A : Type) :=
| Done (a : A)
| ArrayOutOfRange.
Arguments Done {A} a.
Arguments ArrayOutOfRange {A}.

(** A run: the events so far, and how it ended. *)
Definition Exec (A : Type) : Type := list Event * Status A.

Definition ret {A} (a : A) : Exec A := ([], Done a).

Definition bind {A B} (m : Exec A) (f : A -> Exec B) : Exec B :=
  match m with
  | (tr, Done a) => let (tr', r) := f a in (tr ++ tr', r)
  | (tr, ArrayOutOfRange) => (tr, ArrayOutOfRange)
  end.

Definition emit (e : Event) : Exec unit := ([e], Done tt).

(** [a[i]] on a dynamic array. *)
Definition index (a : list float) (i : nat) : Exec float :=
  match nth_error a i with
  | Some x => ret x
  | None => ([], ArrayOutOfRange)
  end.

Definition when (b : bool) (m : Exec unit) : Exec unit :=
  if b then m else ret tt.

Notation "x <- m ;; k" := (bind m (fun x => k))
  (at level 61, m at next level, right associativity).
Notation "m ;; k" := (bind m (fun _ => k))
  (at level 61, right associativity).

Definition events {A} (r : Exec A) : list Event := fst r.
Definition status {A} (r : Exec A) : Status A := snd r.

(** ** The expert *)

(** The source writes [a > b] and [a >= b]. *)
Notation "x >? y" := (PrimFloat.ltb y x) (at level 70, no associativity) : float_scope.
Notation "x >=? y" := (PrimFloat.leb y x) (at level 70, no associativity) : float_scope.

(** [OnInit] (lines 39-53): the four hourly handles; [prevBarTime] starts
    at 0. *)
Definition OnInit (inp : Inputs) (t : Terminal) : list Event * (ENUM_INIT_RETCODE * Globals) :=
  let g := {|
    trendHandle := iMA t PERIOD_H1 (InpTrendPeriod inp);
    rsiHandle := iRSI t PERIOD_H1 (InpRSIPeriod inp);
    macdHandle := iMACD t PERIOD_H1 (InpMACDFastPeriod inp) (InpMACDSlowPeriod inp)
                    (InpMACDSignalPeriod inp);
    atrHandle := iATR t PERIOD_H1 (InpATRPeriod inp);
    prevBarTime := 0
  |} in
  if (trendHandle g =? MQL.INVALID_HANDLE)%Z || (rsiHandle g =? MQL.INVALID_HANDLE)%Z
     || (macdHandle g =? MQL.INVALID_HANDLE)%Z || (atrHandle g =? MQL.INVALID_HANDLE)%Z
  then ([Print [Str "Error creating indicator handles"]], (INIT_FAILED, g))
  else ([], (INIT_SUCCEEDED, g)).

(** [OnDeinit] (lines 58-65). *)
Definition OnDeinit (g : Globals) : list Event :=
  [IndicatorRelease (trendHandle g); IndicatorRelease (rsiHandle g);
   IndicatorRelease (macdHandle g); IndicatorRelease (atrHandle g)].

(** The arrays of [OnTick] after their [CopyBuffer] (lines 87-95, 150-151). *)
Definition trendValue (t : Terminal) (g : Globals) := CopyBuffer t (trendHandle g) 0 0 3.
Definition rsiValue (t : Terminal) (g : Globals) := CopyBuffer t (rsiHandle g) 0 0 3.
Definition macdMain (t : Terminal) (g : Globals) := CopyBuffer t (macdHandle g) 0 0 3.
Definition macdSignal (t : Terminal) (g : Globals) := CopyBuffer t (macdHandle g) 1 0 3.
Definition atrValue (t : Terminal) (g : Globals) := CopyBuffer t (atrHandle g) 0 0 1.

Definition trendHandleHigher (inp : Inputs) (t : Terminal) : Z :=
  iMA t PERIOD_D1 (InpTrendPeriod inp).
Definition rsiHandleHigher (inp : Inputs) (t : Terminal) : Z :=
  iRSI t PERIOD_D1 (InpRSIPeriod inp).
Definition trendValueHigher (inp : Inputs) (t : Terminal) :=
  CopyBuffer t (trendHandleHigher inp t) 0 0 3.
Definition rsiValueHigher (inp : Inputs) (t : Terminal) :=
  CopyBuffer t (rsiHandleHigher inp t) 0 0 3.

(** [double trendExitValue = iMA(_Symbol, PERIOD_D1, InpTrendExitPeriod, ...)]
    (lines 176 and 209): the value of the call, which is the handle,
    converted to [double]. *)
Definition trendExitValue (inp : Inputs) (t : Terminal) : float :=
  MQL.int_to_double (iMA t PERIOD_D1 (InpTrendExitPeriod inp)).

(** [int posDuration = (int)((TimeCurrent() - posOpenTime) / 60)] (line 160). *)
Definition posDuration (t : Terminal) (p : Position) : Z :=
  MQL.to_int (Z.quot (MQL.to_long (TimeCurrent t - POSITION_TIME p)) 60).

(** A line [Print(label, a[0], ", ", a[1], ", ", a[2])] (lines 99-102, 153,
    154).  These are the first reads of [a[0..2]]; the values are handed on,
    the later reads of the same elements return them again. *)
Definition read3 (label : string) (a : list float) : Exec (float * float * float) :=
  a0 <- index a 0 ;;
  a1 <- index a 1 ;;
  a2 <- index a 2 ;;
  emit (Print [Str label; Dbl a0; Str ", "; Dbl a1; Str ", "; Dbl a2]) ;;
  ret (a0, a1, a2).

(** Lines 114-134: the two entry checks. *)
Definition Entry (inp : Inputs) (t : Terminal) (trend0 trend1 rsi0 rsi1 : float) : Exec unit :=
  let bid := SYMBOL_BID t in
  let ask := SYMBOL_ASK t in
  when ((trend0 >? trend1)
        && (rsi0 >? InpRSILowerLevel inp) && (rsi1 <=? InpRSILowerLevel inp))
    (let sl := bid - MQL.int_to_double (InpStopLoss inp) * SYMBOL_POINT t in
     let tp := ask + MQL.int_to_double (InpTakeProfit inp) * SYMBOL_POINT t in
     emit (Buy (InpLotSize inp) ask sl tp "Trend EA Long") ;;
     emit (Print [Str "Long position opened"])) ;;
  when ((trend0 <? trend1)
        && (rsi0 <? InpRSIUpperLevel inp) && (rsi1 >=? InpRSIUpperLevel inp))
    (let sl := ask + MQL.int_to_double (InpStopLoss inp) * SYMBOL_POINT t in
     let tp := bid - MQL.int_to_double (InpTakeProfit inp) * SYMBOL_POINT t in
     emit (Sell (InpLotSize inp) bid sl tp "Trend EA Short") ;;
     emit (Print [Str "Short position opened"])).

(** An exit check: close when the position was held long enough, else only
    say so (lines 166-172 and their three siblings). *)
Definition exit_or_hold (inp : Inputs) (t : Terminal) (p : Position)
    (closed held : string) : Exec unit :=
  if (posDuration t p >=? InpMinHoldDuration inp)%Z then
    emit PositionClose ;;
    emit (Print [Str closed])
  else
    emit (Print [Str held]).

(** Lines 138-230: the body of [if(PositionSelect(_Symbol))]. *)
Definition Manage (inp : Inputs) (t : Terminal) (p : Position) (currentATR : float)
    : Exec unit :=
  let bid := SYMBOL_BID t in
  let ask := SYMBOL_ASK t in
  let posType := POSITION_TYPE p in
  trendH <- read3 "D1 Trend EMA Values: " (trendValueHigher inp t) ;;
  rsiH <- read3 "D1 RSI Values: " (rsiValueHigher inp t) ;;
  let '(trendH0, trendH1, _) := trendH in
  let '(rsiH0, rsiH1, _) := rsiH in
  match posType with
  | POSITION_TYPE_BUY =>
      when ((rsiH0 >? InpRSIExitLevel inp) && (rsiH1 <=? InpRSIExitLevel inp))
        (exit_or_hold inp t p
           "Long position closed due to RSI crossing above exit level"
           "Long position RSI exit triggered but minimum holding period not met") ;;
      when ((trendH1 >? trendExitValue inp t) && (trendH0 <? trendExitValue inp t))
        (exit_or_hold inp t p
           "Long position closed due to price crossing below Trend EMA"
           "Long position trend exit triggered but minimum holding period not met") ;;
      let currentStop := POSITION_SL p in
      let newStop := bid - InpATRMultiplier inp * currentATR in
      when (newStop >? currentStop)
        (emit (PositionModify newStop (POSITION_TP p)) ;;
         emit (Print [Str "Long position ATR-based trailing stop updated to: "; Dbl newStop]))
  | POSITION_TYPE_SELL =>
      when ((rsiH0 <? 100 - InpRSIExitLevel inp) && (rsiH1 >=? 100 - InpRSIExitLevel inp))
        (exit_or_hold inp t p
           "Short position closed due to RSI crossing below exit level"
           "Short position RSI exit triggered but minimum holding period not met") ;;
      when ((trendH1 <? trendExitValue inp t) && (trendH0 >? trendExitValue inp t))
        (exit_or_hold inp t p
           "Short position closed due to price crossing above Trend EMA"
           "Short position trend exit triggered but minimum holding period not met") ;;
      let currentStop := POSITION_SL p in
      let newStop := ask + InpATRMultiplier inp * currentATR in
      when (newStop <? currentStop)
        (emit (PositionModify newStop (POSITION_TP p)) ;;
         emit (Print [Str "Short position ATR-based trailing stop updated to: "; Dbl newStop]))
  end ;;
  emit (IndicatorRelease (trendHandleHigher inp t)) ;;
  emit (IndicatorRelease (rsiHandleHigher inp t)).

(** [OnTick] (lines 70-232).  The result is the value of the globals when
    the handler returns. *)
Definition OnTick (inp : Inputs) (t : Terminal) (g : Globals) : Exec Globals :=
  currentATR <- index (atrValue t g) 0 ;;
  trend <- read3 "Trend EMA Values: " (trendValue t g) ;;
  rsi <- read3 "RSI Values: " (rsiValue t g) ;;
  _ <- read3 "MACD Main Values: " (macdMain t g) ;;
  _ <- read3 "MACD Signal Values: " (macdSignal t g) ;;
  emit (Print [Str "Current ATR Value: "; Dbl currentATR]) ;;
  let '(trend0, trend1, _) := trend in
  let '(rsi0, rsi1, _) := rsi in
  let currentBarTime := iTime t PERIOD_H1 0 in
  if (currentBarTime =? prevBarTime g)%Z then
    ret g
  else
    Entry inp t trend0 trend1 rsi0 rsi1 ;;
    match PositionSelect t with
    | Some p => Manage inp t p currentATR
    | None => ret tt
    end ;;
    ret (set_prevBarTime currentBarTime g).

(** The expert over successive ticks; a critical error stops it. *)
Fixpoint run (inp : Inputs) (g : Globals) (ticks : list Terminal) : list Event :=
  match ticks with
  | [] => []
  | t :: ts =>
      match OnTick inp t g with
      | (evs, Done g') => evs ++ run inp g' ts
      | (evs, ArrayOutOfRange) => evs
      end
  end.

(** ** Reading a run *)

Definition is_buy (e : Event) : bool :=
  match e with Buy _ _ _ _ _ => true | _ => false end.
Definition is_sell (e : Event) : bool :=
  match e with Sell _ _ _ _ _ => true | _ => false end.
Definition is_close (e : Event) : bool :=
  match e with PositionClose => true | _ => false end.
Definition is_modify (e : Event) : bool :=
  match e with PositionModify _ _ => true | _ => false end.

(** The trade requests of a run, in order: what is sent to the trade server. *)
Definition is_request (e : Event) : bool :=
  is_buy e || is_sell e || is_close e || is_modify e.
Definition requests (evs : list Event) : list Event := filter is_request evs.

Definition count (f : Event -> bool) (evs : list Event) : nat :=
  List.length (filter f evs).

(** [a[i]] when the array has it. *)
Definition sample (a : list float) (i : nat) : float := nth i a nan.

(** The array holds the [n] samples that were asked for. *)
Definition delivered (n : nat) (a : list float) : bool := (n <=? List.length a)%nat.

Definition hourly_ok (t : Terminal) (g : Globals) : bool :=
  delivered 1 (atrValue t g) && delivered 3 (trendValue t g)
  && delivered 3 (rsiValue t g) && delivered 3 (macdMain t g)
  && delivered 3 (macdSignal t g).

Definition daily_ok (inp : Inputs) (t : Terminal) : bool :=
  delivered 3 (trendValueHigher inp t) && delivered 3 (rsiValueHigher inp t).

Definition new_bar (t : Terminal) (g : Globals) : bool :=
  negb (iTime t PERIOD_H1 0 =? prevBarTime g)%Z.

(** The conditions of the source, on the samples of a tick. *)
Definition long_signal (inp : Inputs) (t : Terminal) (g : Globals) : bool :=
  (sample (trendValue t g) 0 >? sample (trendValue t g) 1)
  && (sample (rsiValue t g) 0 >? InpRSILowerLevel inp)
  && (sample (rsiValue t g) 1 <=? InpRSILowerLevel inp).

Definition short_signal (inp : Inputs) (t : Terminal) (g : Globals) : bool :=
  (sample (trendValue t g) 0 <? sample (trendValue t g) 1)
  && (sample (rsiValue t g) 0 <? InpRSIUpperLevel inp)
  && (sample (rsiValue t g) 1 >=? InpRSIUpperLevel inp).

Definition rsi_exit (inp : Inputs) (t : Terminal) (side : ENUM_POSITION_TYPE) : bool :=
  match side with
  | POSITION_TYPE_BUY =>
      (sample (rsiValueHigher inp t) 0 >? InpRSIExitLevel inp)
      && (sample (rsiValueHigher inp t) 1 <=? InpRSIExitLevel inp)
  | POSITION_TYPE_SELL =>
      (sample (rsiValueHigher inp t) 0 <? 100 - InpRSIExitLevel inp)
      && (sample (rsiValueHigher inp t) 1 >=? 100 - InpRSIExitLevel inp)
  end.

(** The trend exit against a level [x]. *)
Definition trend_cross (inp : Inputs) (t : Terminal) (side : ENUM_POSITION_TYPE)
    (x : float) : bool :=
  match side with
  | POSITION_TYPE_BUY =>
      (sample (trendValueHigher inp t) 1 >? x) && (sample (trendValueHigher inp t) 0 <? x)
  | POSITION_TYPE_SELL =>
      (sample (trendValueHigher inp t) 1 <? x) && (sample (trendValueHigher inp t) 0 >? x)
  end.

Definition trend_exit (inp : Inputs) (t : Terminal) (side : ENUM_POSITION_TYPE) : bool :=
  trend_cross inp t side (trendExitValue inp t).

Definition held (inp : Inputs) (t : Terminal) (p : Position) : bool :=
  (posDuration t p >=? InpMinHoldDuration inp)%Z.

Definition currentATR (t : Terminal) (g : Globals) : float := sample (atrValue t g) 0.

Definition newStop (inp : Inputs) (t : Terminal) (g : Globals)
    (side : ENUM_POSITION_TYPE) : float :=
  match side with
  | POSITION_TYPE_BUY => SYMBOL_BID t - InpATRMultiplier inp * currentATR t g
  | POSITION_TYPE_SELL => SYMBOL_ASK t + InpATRMultiplier inp * currentATR t g
  end.

Definition trail_signal (inp : Inputs) (t : Terminal) (g : Globals) (p : Position) : bool :=
  match POSITION_TYPE p with
  | POSITION_TYPE_BUY => newStop inp t g POSITION_TYPE_BUY >? POSITION_SL p
  | POSITION_TYPE_SELL => newStop inp t g POSITION_TYPE_SELL <? POSITION_SL p
  end.

(** The requests of the entry checks and of the position management. *)
Definition long_request (inp : Inputs) (t : Terminal) : Event :=
  Buy (InpLotSize inp) (SYMBOL_ASK t)
    (SYMBOL_BID t - MQL.int_to_double (InpStopLoss inp) * SYMBOL_POINT t)
    (SYMBOL_ASK t + MQL.int_to_double (InpTakeProfit inp) * SYMBOL_POINT t)
    "Trend EA Long".

Definition short_request (inp : Inputs) (t : Terminal) : Event :=
  Sell (InpLotSize inp) (SYMBOL_BID t)
    (SYMBOL_ASK t + MQL.int_to_double (InpStopLoss inp) * SYMBOL_POINT t)
    (SYMBOL_BID t - MQL.int_to_double (InpTakeProfit inp) * SYMBOL_POINT t)
    "Trend EA Short".

Definition entry_requests (inp : Inputs) (t : Terminal) (g : Globals) : list Event :=
  (if long_signal inp t g then [long_request inp t] else [])
  ++ (if short_signal inp t g then [short_request inp t] else []).

Definition exit_requests (inp : Inputs) (t : Terminal) (p : Position) (fires : bool)
    : list Event :=
  if fires && held inp t p then [PositionClose] else [].

Definition manage_requests (inp : Inputs) (t : Terminal) (g : Globals) (p : Position)
    : list Event :=
  exit_requests inp t p (rsi_exit inp t (POSITION_TYPE p))
  ++ exit_requests inp t p (trend_exit inp t (POSITION_TYPE p))
  ++ (if trail_signal inp t g p
      then [PositionModify (newStop inp t g (POSITION_TYPE p)) (POSITION_TP p)]
      else []).

(** The stop-loss a position carries once the terminal has carried out the
    modify requests of a run, in order. *)
Fixpoint stop_after (sl : float) (evs : list Event) : float :=
  match evs with
  | [] => sl
  | PositionModify sl' _ :: evs' => stop_after sl' evs'
  | _ :: evs' => stop_after sl evs'
  end.

Definition moved (p : Position) (evs : list Event) : Position := {|
  POSITION_TYPE := POSITION_TYPE p;
  POSITION_SL := stop_after (POSITION_SL p) evs;
  POSITION_TP := POSITION_TP p;
  POSITION_TIME := POSITION_TIME p
|}.

(** The stop-loss of a position [p] over successive ticks, one value before
    each tick and one after the last: each tick shows the expert the position
    as the previous ticks' modify requests left it.  Nothing else moves the
    stop, and the position is followed for as long as ticks are given. *)
Fixpoint trail (inp : Inputs) (g : Globals) (p : Position) (ticks : list Terminal)
    : list float :=
  match ticks with
  | [] => [POSITION_SL p]
  | t :: ts =>
      POSITION_SL p ::
      match OnTick inp (with_position (Some p) t) g with
      | (evs, Done g') => trail inp g' (moved p evs) ts
      | (evs, ArrayOutOfRange) => [POSITION_SL (moved p evs)]
      end
  end.

(** ** The parts of a tick *)

(** What the handler logs before the new-bar check (lines 99-103). *)
Definition hourly_log (t : Terminal) (g : Globals) : list Event :=
  events (_ <- read3 "Trend EMA Values: " (trendValue t g) ;;
          _ <- read3 "RSI Values: " (rsiValue t g) ;;
          _ <- read3 "MACD Main Values: " (macdMain t g) ;;
          _ <- read3 "MACD Signal Values: " (macdSignal t g) ;;
          emit (Print [Str "Current ATR Value: "; Dbl (currentATR t g)])).

(** What the handler does after it (lines 105-231), on the samples read. *)
Definition decide (inp : Inputs) (t : Terminal) (g : Globals) : Exec Globals :=
  if (iTime t PERIOD_H1 0 =? prevBarTime g)%Z then
    ret g
  else
    Entry inp t (sample (trendValue t g) 0) (sample (trendValue t g) 1)
      (sample (rsiValue t g) 0) (sample (rsiValue t g) 1) ;;
    match PositionSelect t with
    | Some p => Manage inp t p (currentATR t g)
    | None => ret tt
    end ;;
    ret (set_prevBarTime (iTime t PERIOD_H1 0) g).

(** The requests of a tick. *)
Definition tick_requests (inp : Inputs) (t : Terminal) (g : Globals) : list Event :=
  if hourly_ok t g && new_bar t g then
    entry_requests inp t g
    ++ match PositionSelect t with
       | Some p => if daily_ok inp t then manage_requests inp t g p else []
       | None => []
       end
  else [].

(** How a tick ends. *)
Definition tick_status (inp : Inputs) (t : Terminal) (g : Globals) : Status Globals :=
  if hourly_ok t g then
    if new_bar t g then
      match PositionSelect t with
      | Some _ =>
          if daily_ok inp t then Done (set_prevBarTime (iTime t PERIOD_H1 0) g)
          else ArrayOutOfRange
      | None => Done (set_prevBarTime (iTime t PERIOD_H1 0) g)
      end
    else Done g
  else ArrayOutOfRange.

(** A tick on which the position [p] is managed: a new bar, every series
    delivered in full. *)
Definition managed (inp : Inputs) (t : Terminal) (g : Globals) (p : Position) : Prop :=
  hourly_ok t g = true /\ new_bar t g = true /\ daily_ok inp t = true
  /\ PositionSelect t = Some p.

(** A series the tick reads came back with fewer samples than are read: an
    hourly one, or a daily one on a tick that gets as far as reading them. *)
Definition fetch_short (inp : Inputs) (t : Terminal) (g : Globals) : bool :=
  negb (hourly_ok t g)
  || (new_bar t g && negb (daily_ok inp t)
      && match PositionSelect t with Some _ => true | None => false end).

(** An exit that fired before the minimum holding time is only reported. *)
Definition hold_report (e : Event) : bool :=
  match e with
  | Print [Str s] =>
      match String.index 0 "minimum holding period not met" s with
      | Some _ => true
      | None => false
      end
  | _ => false
  end.

(** [b] is a tighter stop than [a]: higher for a long, lower for a short. *)
Definition tighter (side : ENUM_POSITION_TYPE) (a b : float) : Prop :=
  match side with
  | POSITION_TYPE_BUY => (b >? a) = true
  | POSITION_TYPE_SELL => (b <? a) = true
  end.

(** [b] is not a looser stop than [a]: not lower for a long, not higher for
    a short. *)
Definition not_looser (side : ENUM_POSITION_TYPE) (a b : float) : Prop :=
  match side with
  | POSITION_TYPE_BUY => (b <? a) = false
  | POSITION_TYPE_SELL => (b >? a) = false
  end.

Definition kept_or_tighter (side : ENUM_POSITION_TYPE) (a b : float) : Prop :=
  a = b \/ tighter side a b.

(** [a], then [b], is monotone in the position's favour: [a <= b] for a
    long, [a >= b] for a short. *)
Definition monotone (side : ENUM_POSITION_TYPE) (a b : float) : Prop :=
  match side with
  | POSITION_TYPE_BUY => (a <=? b) = true
  | POSITION_TYPE_SELL => (a >=? b) = true
  end.

(** ** The expert from start to stop *)

(** The globals after the ticks: those of the last tick that returned. *)
Fixpoint final (inp : Inputs) (g : Globals) (ticks : list Terminal) : Globals :=
  match ticks with
  | [] => g
  | t :: ts =>
      match OnTick inp t g with
      | (_, Done g') => final inp g' ts
      | (_, ArrayOutOfRange) => g
      end
  end.

(** How many of the ticks open on another hourly bar than the tick before
    them ([last] for the first). *)
Fixpoint bar_changes (last : Z) (ticks : list Terminal) : nat :=
  match ticks with
  | [] => 0
  | t :: ts =>
      ((if (iTime t PERIOD_H1 0 =? last)%Z then 0 else 1)
       + bar_changes (iTime t PERIOD_H1 0) ts)%nat
  end.

Definition is_entry (e : Event) : bool := is_buy e || is_sell e.

Definition is_release (e : Event) : bool :=
  match e with IndicatorRelease _ => true | _ => false end.

(** The same tick with other values in the two MACD buffers. *)
Definition with_macd (main signal : list float) (g : Globals) (t : Terminal) : Terminal := {|
  SYMBOL_BID := SYMBOL_BID t;
  SYMBOL_ASK := SYMBOL_ASK t;
  SYMBOL_POINT := SYMBOL_POINT t;
  iMA := iMA t;
  iRSI := iRSI t;
  iMACD := iMACD t;
  iATR := iATR t;
  CopyBuffer := fun handle buffer start n =>
    if (handle =? macdHandle g)%Z
    then (if (buffer =? 0)%Z then main
          else if (buffer =? 1)%Z then signal
          else CopyBuffer t handle buffer start n)
    else CopyBuffer t handle buffer start n;
  iTime := iTime t;
  TimeCurrent := TimeCurrent t;
  PositionSelect := PositionSelect t
|}.

(** [x] is NaN: the one [double] that is not equal to itself. *)
Definition is_nan (x : float) : bool := negb (x =? x).

(** ** Ticks to run the expert on *)

Module Sample.

(** A terminal that hands out the handles 10, 11, ... in the order the
    expert asks for them, and serves the given series. *)
Definition terminal (bid ask : float) (bar now : Z)
    (trend rsi macd signal atr trendD1 rsiD1 exitD1 : list float)
    (pos : option Position) : Terminal := {|
  SYMBOL_BID := bid;
  SYMBOL_ASK := ask;
  SYMBOL_POINT := 0.0001;
  iMA := fun tf period =>
    match tf with
    | PERIOD_H1 => 10%Z
    | PERIOD_D1 => if (period =? 100)%Z then 16%Z else 14%Z
    end;
  iRSI := fun tf _ => match tf with PERIOD_H1 => 11%Z | PERIOD_D1 => 15%Z end;
  iMACD := fun _ _ _ _ => 12%Z;
  iATR := fun _ _ => 13%Z;
  CopyBuffer := fun handle buffer _ _ =>
    if (handle =? 10)%Z then trend
    else if (handle =? 11)%Z then rsi
    else if (handle =? 12)%Z then (if (buffer =? 0)%Z then macd else signal)
    else if (handle =? 13)%Z then atr
    else if (handle =? 14)%Z then trendD1
    else if (handle =? 15)%Z then rsiD1
    else if (handle =? 16)%Z then exitD1
    else [];
  iTime := fun _ _ => bar;
  TimeCurrent := now;
  PositionSelect := pos
|}.

Definition macd : list float := [0.0012; 0.0010; 0.0008].
Definition signal : list float := [0.0009; 0.0009; 0.0008].

(** 2023-06-01 10:00:00 and the hour before. *)
Definition bar : Z := 1685613600%Z.
Definition bar_before : Z := 1685610000%Z.

Definition globals (last : Z) : Globals :=
  set_prevBarTime last
    (snd (snd (OnInit defaults (terminal 0 0 0 0 [] [] [] [] [] [] [] [] None)))).

Definition long (sl tp : float) (opened : Z) : Position := {|
  POSITION_TYPE := POSITION_TYPE_BUY;
  POSITION_SL := sl;
  POSITION_TP := tp;
  POSITION_TIME := opened
|}.

Definition short (sl tp : float) (opened : Z) : Position := {|
  POSITION_TYPE := POSITION_TYPE_SELL;
  POSITION_SL := sl;
  POSITION_TP := tp;
  POSITION_TIME := opened
|}.

(** Hourly series with a long signal at the default levels (the trend
    rises, the RSI crosses 40 upwards), with a short signal, and with
    neither. *)
Definition long_tick (now : Z) (atr trendD1 rsiD1 exitD1 : list float)
    (pos : option Position) : Terminal :=
  terminal 1.2 1.2002 bar now [1.10; 1.00; 0.95] [41; 39; 38] macd signal
    atr trendD1 rsiD1 exitD1 pos.

Definition short_tick (now : Z) (atr trendD1 rsiD1 exitD1 : list float)
    (pos : option Position) : Terminal :=
  terminal 1.1998 1.2 bar now [1.00; 1.10; 1.15] [59; 61; 62] macd signal
    atr trendD1 rsiD1 exitD1 pos.

Definition quiet_tick (now : Z) (atr trendD1 rsiD1 exitD1 : list float)
    (pos : option Position) : Terminal :=
  terminal 1.2 1.2002 bar now [1.10; 1.00; 0.95] [45; 44; 43] macd signal
    atr trendD1 rsiD1 exitD1 pos.

(** A long opened two hours before the bar, and one opened ten minutes
    before it. *)
Definition old_long : Position := long 1.19 1.22 (bar - 7200).
Definition young_long : Position := long 1.19 1.22 (bar - 600).

(** The daily RSI crosses the exit level 50 upwards (49, then 51). *)
Definition rsi_cross_tick (pos : Position) : Terminal :=
  quiet_tick (bar + 5) [0.0020] [1.09; 1.11; 1.12] [51; 49; 48] [1.08] (Some pos).

(** The daily trend EMA falls through the exit EMA, whose latest value is
    1.10; the daily RSI does not cross. *)
Definition trend_cross_tick : Terminal :=
  quiet_tick (bar + 5) [0.0020] [1.09; 1.11; 1.12] [55; 56; 57] [1.10] (Some old_long).

(** An instrument priced near 16: the daily RSI crosses 50 upwards and the
    daily trend EMA falls from 16.1 to 15.9. *)
Definition near16_tick : Terminal :=
  terminal 16.05 16.06 bar (bar + 5) [16.0; 15.9; 15.8] [45; 44; 43] macd signal
    [0.2] [15.9; 16.1; 16.2] [51; 49; 48] [15.5] (Some (long 15.0 17.0 (bar - 7200))).

(** Three hourly bars with a long open; the ATR widens, then narrows. *)
Definition trail_ticks : list Terminal :=
  [terminal 1.2 1.2002 bar (bar + 5) [1.10; 1.00; 0.95] [45; 44; 43] macd signal
     [0.0020] [1.09; 1.11; 1.12] [55; 56; 57] [1.08] None;
   terminal 1.201 1.2012 (bar + 3600) (bar + 3605) [1.10; 1.00; 0.95] [45; 44; 43]
     macd signal [0.0040] [1.09; 1.11; 1.12] [55; 56; 57] [1.08] None;
   terminal 1.203 1.2032 (bar + 7200) (bar + 7205) [1.10; 1.00; 0.95] [45; 44; 43]
     macd signal [0.0010] [1.09; 1.11; 1.12] [55; 56; 57] [1.08] None].

End Sample.

(** ** The order of [double] *)

Module FloatOrder.

Lemma SFltb_trans a b c :
  SFltb a b = true -> SFltb b c = true -> SFltb a c = true.
Proof.
  unfold SFltb, SFcompare.
  destruct a as [sa|sa| |sa ma ea], b as [sb|sb| |sb mb eb], c as [sc|sc| |sc mc ec];
    repeat match goal with s : bool |- _ => destruct s end;
    try discriminate; try reflexivity; intros H1 H2.
  all: change (Pos.compare_cont Eq) with Pos.compare in *.
  all: destruct (Z.compare_spec ea eb), (Z.compare_spec eb ec), (Z.compare_spec ea ec);
    try discriminate; try reflexivity; try lia.
  all: destruct (Pos.compare_spec ma mb), (Pos.compare_spec mb mc), (Pos.compare_spec ma mc);
    try discriminate; try reflexivity; try lia.
Qed.

Lemma SFltb_irrefl a : SFltb a a = false.
Proof.
  unfold SFltb, SFcompare.
  destruct a as [s|s| |s m e]; try destruct s; try reflexivity;
    rewrite Z.compare_refl; change (Pos.compare_cont Eq) with Pos.compare;
    rewrite Pos.compare_refl; reflexivity.
Qed.

Lemma ltb_trans x y z : (x <? y) = true -> (y <? z) = true -> (x <? z) = true.
Proof. rewrite !ltb_spec. apply SFltb_trans. Qed.

Lemma ltb_irrefl x : (x <? x) = false.
Proof. rewrite ltb_spec. apply SFltb_irrefl. Qed.

Lemma ltb_asym x y : (x <? y) = true -> (y <? x) = false.
Proof.
  intros H. destruct (y <? x) eqn:E; [|reflexivity].
  rewrite <- (ltb_irrefl x). symmetry. eapply ltb_trans; eassumption.
Qed.

(** [x =? x] holds of every [double] but NaN. *)
Lemma ltb_number x y : (x <? y) = true -> (y =? y) = true.
Proof.
  rewrite ltb_spec, eqb_spec. unfold SFltb, SFeqb, SFcompare.
  destruct (Prim2SF x) as [sx|sx| |sx mx ex], (Prim2SF y) as [sy|sy| |sy my ey];
    try discriminate; intros _;
    repeat match goal with s : bool |- _ => destruct s end; try reflexivity;
    rewrite Z.compare_refl; change (Pos.compare_cont Eq) with Pos.compare;
    rewrite Pos.compare_refl; reflexivity.
Qed.

Lemma ltb_leb x y : (x <? y) = true -> (x <=? y) = true.
Proof.
  rewrite ltb_spec, leb_spec. unfold SFltb, SFleb.
  destruct (SFcompare (Prim2SF x) (Prim2SF y)) as [[]|]; congruence.
Qed.

Lemma leb_refl x : (x =? x) = true -> (x <=? x) = true.
Proof.
  rewrite eqb_spec, leb_spec. unfold SFeqb, SFleb.
  destruct (SFcompare (Prim2SF x) (Prim2SF x)) as [[]|]; congruence.
Qed.

End FloatOrder.

(** ** The shape of a tick *)

Lemma index0_spec (a : list float) :
  index a 0 = if delivered 1 a then ret (sample a 0) else ([], ArrayOutOfRange).
Proof. destruct a; reflexivity. Qed.

Lemma read3_spec (label : string) (a : list float) :
  read3 label a =
  if delivered 3 a
  then ([Print [Str label; Dbl (sample a 0); Str ", "; Dbl (sample a 1);
                Str ", "; Dbl (sample a 2)]],
        Done (sample a 0, sample a 1, sample a 2))
  else ([], ArrayOutOfRange).
Proof. destruct a as [|x [|y [|z l]]]; reflexivity. Qed.

Lemma events_bind {A B} (m : Exec A) (f : A -> Exec B) :
  events (bind m f) =
  events m ++ match status m with Done a => events (f a) | ArrayOutOfRange => [] end.
Proof.
  destruct m as [tr [a|]]; simpl.
  - destruct (f a); reflexivity.
  - symmetry; apply app_nil_r.
Qed.

Lemma status_bind {A B} (m : Exec A) (f : A -> Exec B) :
  status (bind m f) =
  match status m with Done a => status (f a) | ArrayOutOfRange => ArrayOutOfRange end.
Proof.
  destruct m as [tr [a|]]; simpl; [destruct (f a)|]; reflexivity.
Qed.

Lemma requests_app (l l' : list Event) : requests (l ++ l') = requests l ++ requests l'.
Proof. apply filter_app. Qed.

Lemma count_app (f : Event -> bool) (l l' : list Event) :
  count f (l ++ l') = (count f l + count f l')%nat.
Proof. unfold count. rewrite filter_app. apply length_app. Qed.

Ltac split_ok H :=
  repeat match type of H with
         | _ && _ = true => let H' := fresh H in apply andb_prop in H; destruct H as [H H']
         end.

Lemma OnTick_hourly_ok (inp : Inputs) (t : Terminal) (g : Globals) :
  hourly_ok t g = true ->
  OnTick inp t g = (hourly_log t g ++ events (decide inp t g), status (decide inp t g)).
Proof.
  intros H. unfold hourly_ok in H. split_ok H.
  unfold OnTick, hourly_log, decide, currentATR.
  rewrite index0_spec, !read3_spec, H, H0, H1, H2, H3.
  cbn [bind ret emit events status fst snd app].
  destruct (iTime t PERIOD_H1 0 =? prevBarTime g)%Z; [reflexivity|].
  destruct (bind (Entry inp t _ _ _ _) _) as [tr r]. reflexivity.
Qed.

Lemma OnTick_hourly_short (inp : Inputs) (t : Terminal) (g : Globals) :
  hourly_ok t g = false ->
  status (OnTick inp t g) = ArrayOutOfRange /\ requests (events (OnTick inp t g)) = [].
Proof.
  unfold hourly_ok, OnTick. rewrite index0_spec, !read3_spec.
  destruct (delivered 1 (atrValue t g)); [|split; reflexivity].
  destruct (delivered 3 (trendValue t g)); [|split; reflexivity].
  destruct (delivered 3 (rsiValue t g)); [|split; reflexivity].
  destruct (delivered 3 (macdMain t g)); [|split; reflexivity].
  destruct (delivered 3 (macdSignal t g)); [discriminate|split; reflexivity].
Qed.

Ltac case_conditions :=
  repeat match goal with
         | |- context [PrimFloat.ltb ?x ?y] => destruct (PrimFloat.ltb x y) eqn:?
         | |- context [PrimFloat.leb ?x ?y] => destruct (PrimFloat.leb x y) eqn:?
         | |- context [Z.geb ?x ?y] => destruct (Z.geb x y) eqn:?
         end.

Lemma Entry_status (inp : Inputs) (t : Terminal) (trend0 trend1 rsi0 rsi1 : float) :
  status (Entry inp t trend0 trend1 rsi0 rsi1) = Done tt.
Proof. unfold Entry, when. case_conditions; reflexivity. Qed.

Lemma Entry_requests (inp : Inputs) (t : Terminal) (g : Globals) :
  requests (events (Entry inp t (sample (trendValue t g) 0) (sample (trendValue t g) 1)
                      (sample (rsiValue t g) 0) (sample (rsiValue t g) 1)))
  = entry_requests inp t g.
Proof.
  unfold Entry, entry_requests, long_signal, short_signal, long_request, short_request, when.
  case_conditions; reflexivity.
Qed.

Ltac open_manage :=
  unfold Manage, manage_requests, exit_requests, exit_or_hold, held, rsi_exit, trend_exit,
    trend_cross, trail_signal, newStop, when.

Lemma Manage_daily_short (inp : Inputs) (t : Terminal) (p : Position) (atr : float) :
  daily_ok inp t = false ->
  status (Manage inp t p atr) = ArrayOutOfRange /\ requests (events (Manage inp t p atr)) = [].
Proof.
  unfold daily_ok, Manage. rewrite !read3_spec.
  destruct (delivered 3 (trendValueHigher inp t)); [|split; reflexivity].
  destruct (delivered 3 (rsiValueHigher inp t)); [discriminate|split; reflexivity].
Qed.

Lemma Manage_daily_ok (inp : Inputs) (t : Terminal) (g : Globals) (p : Position) :
  daily_ok inp t = true ->
  status (Manage inp t p (currentATR t g)) = Done tt
  /\ requests (events (Manage inp t p (currentATR t g))) = manage_requests inp t g p
  /\ count hold_report (events (Manage inp t p (currentATR t g)))
     = (if held inp t p then 0
        else Nat.b2n (rsi_exit inp t (POSITION_TYPE p))
             + Nat.b2n (trend_exit inp t (POSITION_TYPE p)))%nat.
Proof.
  intros H. unfold daily_ok in H. split_ok H.
  open_manage. rewrite !read3_spec, H, H0. cbn [bind].
  destruct (POSITION_TYPE p); case_conditions; repeat split; reflexivity.
Qed.

Lemma hourly_log_requests (t : Terminal) (g : Globals) : requests (hourly_log t g) = [].
Proof.
  unfold hourly_log. rewrite !read3_spec.
  repeat match goal with |- context [delivered ?n ?a] => destruct (delivered n a) end;
    reflexivity.
Qed.

Lemma decide_requests (inp : Inputs) (t : Terminal) (g : Globals) :
  requests (events (decide inp t g)) =
  if new_bar t g then
    entry_requests inp t g
    ++ match PositionSelect t with
       | Some p => if daily_ok inp t then manage_requests inp t g p else []
       | None => []
       end
  else [].
Proof.
  unfold decide, new_bar.
  destruct (iTime t PERIOD_H1 0 =? prevBarTime g)%Z; [reflexivity|]. cbn [negb].
  rewrite events_bind, Entry_status, requests_app, Entry_requests. f_equal.
  rewrite events_bind, requests_app.
  destruct (PositionSelect t) as [p|].
  - destruct (daily_ok inp t) eqn:D.
    + destruct (Manage_daily_ok inp t g p D) as (S & R & _). rewrite S, R. apply app_nil_r.
    + destruct (Manage_daily_short inp t p (currentATR t g) D) as (S & R). rewrite S, R.
      reflexivity.
  - reflexivity.
Qed.

Lemma OnTick_requests (inp : Inputs) (t : Terminal) (g : Globals) :
  requests (events (OnTick inp t g)) = tick_requests inp t g.
Proof.
  unfold tick_requests. destruct (hourly_ok t g) eqn:H.
  - rewrite (OnTick_hourly_ok inp t g H). cbn [events fst andb].
    rewrite requests_app, hourly_log_requests. apply decide_requests.
  - apply (OnTick_hourly_short inp t g H).
Qed.

Lemma OnTick_status (inp : Inputs) (t : Terminal) (g : Globals) :
  status (OnTick inp t g) = tick_status inp t g.
Proof.
  unfold tick_status. destruct (hourly_ok t g) eqn:H.
  - rewrite (OnTick_hourly_ok inp t g H). cbn [status snd].
    unfold decide, new_bar.
    destruct (iTime t PERIOD_H1 0 =? prevBarTime g)%Z; [reflexivity|]. cbn [negb].
    rewrite status_bind, Entry_status, status_bind.
    destruct (PositionSelect t) as [p|]; [|reflexivity].
    destruct (daily_ok inp t) eqn:D.
    + destruct (Manage_daily_ok inp t g p D) as (S & _). rewrite S. reflexivity.
    + destruct (Manage_daily_short inp t p (currentATR t g) D) as (S & _). rewrite S.
      reflexivity.
  - apply (OnTick_hourly_short inp t g H).
Qed.

(** ** Counting requests *)

Lemma filter_requests (f : Event -> bool) (l : list Event) :
  (forall e, f e = true -> is_request e = true) ->
  filter f (requests l) = filter f l.
Proof.
  intros Hf. induction l as [|e l IH]; [reflexivity|]. simpl.
  destruct (is_request e) eqn:R; simpl.
  - rewrite IH. reflexivity.
  - destruct (f e) eqn:F; [|exact IH].
    rewrite (Hf e F) in R. discriminate.
Qed.

Lemma buy_is_request e : is_buy e = true -> is_request e = true.
Proof. destruct e; cbv; congruence. Qed.
Lemma sell_is_request e : is_sell e = true -> is_request e = true.
Proof. destruct e; cbv; congruence. Qed.
Lemma close_is_request e : is_close e = true -> is_request e = true.
Proof. destruct e; cbv; congruence. Qed.
Lemma modify_is_request e : is_modify e = true -> is_request e = true.
Proof. destruct e; cbv; congruence. Qed.

Create HintDb requests.
#[local] Hint Resolve buy_is_request sell_is_request close_is_request modify_is_request
  : requests.

Lemma count_requests (f : Event -> bool) (l : list Event) :
  (forall e, f e = true -> is_request e = true) ->
  count f l = count f (requests l).
Proof. intros Hf. unfold count. rewrite filter_requests by exact Hf. reflexivity. Qed.

(** The entry checks send no close and no modify, the management no entry. *)
Lemma entry_requests_kinds (inp : Inputs) (t : Terminal) (g : Globals) :
  filter is_buy (entry_requests inp t g)
    = (if long_signal inp t g then [long_request inp t] else [])
  /\ filter is_sell (entry_requests inp t g)
    = (if short_signal inp t g then [short_request inp t] else [])
  /\ filter is_close (entry_requests inp t g) = []
  /\ filter is_modify (entry_requests inp t g) = [].
Proof.
  unfold entry_requests.
  destruct (long_signal inp t g), (short_signal inp t g); repeat split; reflexivity.
Qed.

Lemma manage_requests_kinds (inp : Inputs) (t : Terminal) (g : Globals) (p : Position) :
  filter is_buy (manage_requests inp t g p) = []
  /\ filter is_sell (manage_requests inp t g p) = []
  /\ count is_close (manage_requests inp t g p)
     = (if held inp t p
        then Nat.b2n (rsi_exit inp t (POSITION_TYPE p))
             + Nat.b2n (trend_exit inp t (POSITION_TYPE p))
        else 0)%nat
  /\ filter is_modify (manage_requests inp t g p)
     = (if trail_signal inp t g p
        then [PositionModify (newStop inp t g (POSITION_TYPE p)) (POSITION_TP p)]
        else []).
Proof.
  unfold manage_requests, exit_requests.
  destruct (rsi_exit inp t (POSITION_TYPE p)), (trend_exit inp t (POSITION_TYPE p)),
    (held inp t p), (trail_signal inp t g p); repeat split; reflexivity.
Qed.

Lemma managed_requests (inp : Inputs) (t : Terminal) (g : Globals) (p : Position) :
  managed inp t g p ->
  requests (events (OnTick inp t g)) = entry_requests inp t g ++ manage_requests inp t g p.
Proof.
  intros (H & N & D & P). rewrite OnTick_requests. unfold tick_requests.
  rewrite H, N, P, D. reflexivity.
Qed.

Lemma managed_iff (inp : Inputs) (t : Terminal) (g : Globals) (p : Position) :
  PositionSelect t = Some p ->
  forall e, (is_close e || is_modify e) = true -> In e (events (OnTick inp t g)) ->
  managed inp t g p.
Proof.
  intros P e K I.
  assert (R : In e (requests (events (OnTick inp t g)))).
  { apply filter_In. split; [exact I|]. unfold is_request.
    destruct (is_close e), (is_modify e), (is_buy e), (is_sell e); try reflexivity;
      discriminate. }
  rewrite OnTick_requests in R. unfold tick_requests in R. unfold managed.
  destruct (hourly_ok t g), (new_bar t g); try (destruct R; fail). cbn [andb] in R.
  rewrite P in R. destruct (daily_ok inp t); [auto|].
  rewrite app_nil_r in R.
  assert (F : In e (filter (fun e => is_close e || is_modify e) (entry_requests inp t g))).
  { apply filter_In. auto. }
  unfold entry_requests in F.
  destruct (long_signal inp t g), (short_signal inp t g); destruct F.
Qed.

(** Same-bar ticks. *)
Lemma same_bar_tick (inp : Inputs) (t : Terminal) (g : Globals) :
  iTime t PERIOD_H1 0 = prevBarTime g ->
  requests (events (OnTick inp t g)) = []
  /\ (status (OnTick inp t g) = Done g \/ status (OnTick inp t g) = ArrayOutOfRange).
Proof.
  intros E. rewrite OnTick_requests, OnTick_status. unfold tick_requests, tick_status, new_bar.
  rewrite E, Z.eqb_refl. cbn [negb]. rewrite andb_false_r.
  destruct (hourly_ok t g); auto.
Qed.

Lemma same_bar_run (inp : Inputs) (b : Z) (ts : list Terminal) :
  Forall (fun t => iTime t PERIOD_H1 0 = b) ts ->
  forall g, prevBarTime g = b -> requests (run inp g ts) = [].
Proof.
  induction 1 as [|t ts Ht _ IH]; intros g Hg; [reflexivity|]. simpl.
  destruct (same_bar_tick inp t g) as (R & S); [congruence|].
  unfold events in R. unfold status in S.
  destruct (OnTick inp t g) as [evs [g'|]]; simpl in *.
  - rewrite requests_app, R. destruct S as [S|S]; [|discriminate].
    injection S as ->. apply IH, Hg.
  - exact R.
Qed.

Lemma tick_entries (inp : Inputs) (t : Terminal) (g : Globals) :
  hourly_ok t g = true -> new_bar t g = true ->
  filter is_buy (events (OnTick inp t g))
    = (if long_signal inp t g then [long_request inp t] else [])
  /\ filter is_sell (events (OnTick inp t g))
    = (if short_signal inp t g then [short_request inp t] else []).
Proof.
  intros H N.
  rewrite <- (filter_requests is_buy), <- (filter_requests is_sell) by auto with requests.
  rewrite OnTick_requests. unfold tick_requests. rewrite H, N. cbn [andb].
  rewrite !filter_app.
  destruct (entry_requests_kinds inp t g) as (B & S & _). rewrite B, S.
  assert (M : filter is_buy
                match PositionSelect t with
                | Some p => if daily_ok inp t then manage_requests inp t g p else []
                | None => []
                end = []
              /\ filter is_sell
                match PositionSelect t with
                | Some p => if daily_ok inp t then manage_requests inp t g p else []
                | None => []
                end = []).
  { destruct (PositionSelect t) as [p|]; [|split; reflexivity].
    destruct (daily_ok inp t); [|split; reflexivity].
    destruct (manage_requests_kinds inp t g p) as (B' & S' & _). auto. }
  destruct M as (-> & ->). rewrite !app_nil_r. auto.
Qed.

(** After the first tick of a bar, the later ticks of that bar add no
    request. *)
Lemma run_bar (inp : Inputs) (g : Globals) (t : Terminal) (ts : list Terminal) :
  hourly_ok t g = true -> new_bar t g = true ->
  Forall (fun t' => iTime t' PERIOD_H1 0 = iTime t PERIOD_H1 0) ts ->
  requests (run inp g (t :: ts)) = requests (events (OnTick inp t g)).
Proof.
  intros H N F. simpl.
  pose proof (OnTick_status inp t g) as S. unfold tick_status in S. rewrite H, N in S.
  unfold events, status in *.
  destruct (OnTick inp t g) as [evs [g'|]]; simpl in *; [|reflexivity].
  rewrite requests_app, (same_bar_run inp (iTime t PERIOD_H1 0) ts F), app_nil_r;
    [reflexivity|].
  destruct (PositionSelect t); [destruct (daily_ok inp t)|]; try discriminate;
    injection S as ->; reflexivity.
Qed.

(** ** The claims *)

(** C1 (as amended).  On a tick that starts a new hourly bar and on which the
    hourly series were delivered in full, a long signal (trend EMA sample 0
    above sample 1, RSI sample 0 above the lower level and sample 1 at or
    below it) makes the bar carry exactly one open-long request, whatever
    further ticks the bar has, with stop-loss [bid - InpStopLoss * point] and
    take-profit [ask + InpTakeProfit * point]; a short signal likewise makes
    it carry exactly one open-short request with stop-loss
    [ask + InpStopLoss * point] and take-profit [bid - InpTakeProfit * point].
    The arithmetic is binary64. *)
Theorem C1_entry_once_per_bar (inp : Inputs) (g : Globals) (t : Terminal)
    (ts : list Terminal) :
  hourly_ok t g = true -> new_bar t g = true ->
  Forall (fun t' => iTime t' PERIOD_H1 0 = iTime t PERIOD_H1 0) ts ->
  (long_signal inp t g = true ->
   filter is_buy (run inp g (t :: ts)) =
   [Buy (InpLotSize inp) (SYMBOL_ASK t)
      (SYMBOL_BID t - MQL.int_to_double (InpStopLoss inp) * SYMBOL_POINT t)
      (SYMBOL_ASK t + MQL.int_to_double (InpTakeProfit inp) * SYMBOL_POINT t)
      "Trend EA Long"])
  /\ (short_signal inp t g = true ->
      filter is_sell (run inp g (t :: ts)) =
      [Sell (InpLotSize inp) (SYMBOL_BID t)
         (SYMBOL_ASK t + MQL.int_to_double (InpStopLoss inp) * SYMBOL_POINT t)
         (SYMBOL_BID t - MQL.int_to_double (InpTakeProfit inp) * SYMBOL_POINT t)
         "Trend EA Short"]).
Proof.
  intros H N F.
  pose proof (run_bar inp g t ts H N F) as R.
  destruct (tick_entries inp t g H N) as (B & S).
  split; intros L.
  - rewrite <- (filter_requests is_buy), R, filter_requests, B, L by auto with requests.
    reflexivity.
  - rewrite <- (filter_requests is_sell), R, filter_requests, S, L by auto with requests.
    reflexivity.
Qed.

(** C1, at the inputs of the specification: bid 1.2000, 50 points of 0.0001
    give the long stop 1.195; the bar has a second tick, and still one
    request.  For the short from ask 1.2000 the stop is the binary64 sum
    1.2049999999999998. *)
Lemma C1_entry_once_per_bar_witness :
  let g := Sample.globals Sample.bar_before in
  let t := Sample.long_tick (Sample.bar + 5) [0.0020] [] [] [] None in
  let t' := Sample.long_tick (Sample.bar + 65) [0.0021] [] [] [] None in
  let s := Sample.short_tick (Sample.bar + 5) [0.0020] [] [] [] None in
  (hourly_ok t g = true /\ new_bar t g = true /\ long_signal defaults t g = true
   /\ filter is_buy (run defaults g [t; t'])
      = [Buy 0.1 1.2002 1.195 (1.2002 + 100 * 0.0001) "Trend EA Long"])
  /\ (hourly_ok s g = true /\ new_bar s g = true /\ short_signal defaults s g = true
      /\ filter is_sell (run defaults g [s])
         = [Sell 0.1 1.1998 1.2049999999999998 (1.1998 - 100 * 0.0001) "Trend EA Short"]).
Proof.
  intros g t t' s. split.
  - split; [reflexivity|]. split; [reflexivity|]. split; [reflexivity|].
    apply (C1_entry_once_per_bar defaults g t [t']); try reflexivity.
    repeat constructor.
  - split; [reflexivity|]. split; [reflexivity|]. split; [reflexivity|].
    apply (C1_entry_once_per_bar defaults g s []); try reflexivity.
    constructor.
Defined.

(** C1 as it was stated fails twice.  The short stop from ask 1.2000 with 50
    points of 0.0001 is not the [double] 1.205 but the [double] just below
    it; and
    a new bar with a rising trend and the RSI crossing has no open-long
    request when the ATR series came back empty: the read of [atrValue[0]]
    stops the expert first. *)
Lemma C1_counterexample :
  (filter is_sell
     (events (OnTick defaults (Sample.short_tick (Sample.bar + 5) [0.0020] [] [] [] None)
                (Sample.globals Sample.bar_before)))
   = [Sell 0.1 1.1998 1.2049999999999998 (1.1998 - 100 * 0.0001) "Trend EA Short"]
   /\ (1.2049999999999998 =? 1.205) = false
   /\ next_up 1.2049999999999998 = 1.205)
  /\ (new_bar (Sample.long_tick (Sample.bar + 5) [] [] [] [] None)
        (Sample.globals Sample.bar_before) = true
      /\ long_signal defaults (Sample.long_tick (Sample.bar + 5) [] [] [] [] None)
           (Sample.globals Sample.bar_before) = true
      /\ OnTick defaults (Sample.long_tick (Sample.bar + 5) [] [] [] [] None)
           (Sample.globals Sample.bar_before) = ([], ArrayOutOfRange)).
Proof. repeat split; reflexivity. Qed.

Lemma managed_closes (inp : Inputs) (t : Terminal) (g : Globals) (p : Position) :
  managed inp t g p ->
  count is_close (events (OnTick inp t g))
  = (if held inp t p
     then Nat.b2n (rsi_exit inp t (POSITION_TYPE p))
          + Nat.b2n (trend_exit inp t (POSITION_TYPE p))
     else 0)%nat.
Proof.
  intros M. rewrite (count_requests is_close) by auto with requests.
  rewrite (managed_requests inp t g p M), count_app.
  destruct (entry_requests_kinds inp t g) as (_ & _ & C & _).
  destruct (manage_requests_kinds inp t g p) as (_ & _ & C' & _).
  unfold count at 1. rewrite C, C'. reflexivity.
Qed.

Lemma managed_modifies (inp : Inputs) (t : Terminal) (g : Globals) (p : Position) :
  managed inp t g p ->
  filter is_modify (events (OnTick inp t g))
  = (if trail_signal inp t g p
     then [PositionModify (newStop inp t g (POSITION_TYPE p)) (POSITION_TP p)]
     else []).
Proof.
  intros M. rewrite <- (filter_requests is_modify) by auto with requests.
  rewrite (managed_requests inp t g p M), filter_app.
  destruct (entry_requests_kinds inp t g) as (_ & _ & _ & C).
  destruct (manage_requests_kinds inp t g p) as (_ & _ & _ & C').
  rewrite C, C'. reflexivity.
Qed.

Lemma managed_modify_count (inp : Inputs) (t : Terminal) (g : Globals) (p : Position) :
  managed inp t g p ->
  count is_modify (events (OnTick inp t g)) = Nat.b2n (trail_signal inp t g p).
Proof.
  intros M. unfold count. rewrite (managed_modifies inp t g p M).
  destruct (trail_signal inp t g p); reflexivity.
Qed.

(** C2 (as amended).  On a tick that starts a new hourly bar, with every
    series delivered and a position selected that was held for the minimum
    duration, the daily RSI reversal (for a long: sample 0 above the exit
    level and sample 1 at or below it; for a short: sample 0 below
    100 - level and sample 1 at or above it) sends one close request, and the
    tick carries exactly one unless the trend exit fires on it too, which
    sends a second. *)
Theorem C2_rsi_exit_closes (inp : Inputs) (t : Terminal) (g : Globals) (p : Position) :
  managed inp t g p -> held inp t p = true ->
  rsi_exit inp t (POSITION_TYPE p) = true ->
  count is_close (events (OnTick inp t g))
  = (1 + Nat.b2n (trend_exit inp t (POSITION_TYPE p)))%nat.
Proof.
  intros M H R. rewrite (managed_closes inp t g p M), H, R. reflexivity.
Qed.

(** C2 at the scenario of the specification: exit level 50, daily RSI 49 then
    51, a long held two hours: one close. *)
Lemma C2_rsi_exit_closes_witness :
  managed defaults (Sample.rsi_cross_tick Sample.old_long)
    (Sample.globals Sample.bar_before) Sample.old_long
  /\ held defaults (Sample.rsi_cross_tick Sample.old_long) Sample.old_long = true
  /\ rsi_exit defaults (Sample.rsi_cross_tick Sample.old_long) POSITION_TYPE_BUY = true
  /\ count is_close
       (events (OnTick defaults (Sample.rsi_cross_tick Sample.old_long)
                  (Sample.globals Sample.bar_before))) = 1%nat.
Proof.
  assert (M : managed defaults (Sample.rsi_cross_tick Sample.old_long)
                (Sample.globals Sample.bar_before) Sample.old_long)
    by (repeat split; reflexivity).
  split; [exact M|]. split; [reflexivity|]. split; [reflexivity|].
  exact (C2_rsi_exit_closes defaults (Sample.rsi_cross_tick Sample.old_long)
           (Sample.globals Sample.bar_before) Sample.old_long M eq_refl eq_refl).
Defined.

(** C2 as it was stated fails on a tick inside the bar already processed (a
    long, held two hours, daily RSI 49 then 51: no close), and on a tick on
    which the trend exit fires as well (two closes). *)
Lemma C2_counterexample :
  (PositionSelect (Sample.rsi_cross_tick Sample.old_long) = Some Sample.old_long
   /\ held defaults (Sample.rsi_cross_tick Sample.old_long) Sample.old_long = true
   /\ rsi_exit defaults (Sample.rsi_cross_tick Sample.old_long) POSITION_TYPE_BUY = true
   /\ count is_close
        (events (OnTick defaults (Sample.rsi_cross_tick Sample.old_long)
                   (Sample.globals Sample.bar))) = 0%nat)
  /\ (rsi_exit defaults Sample.near16_tick POSITION_TYPE_BUY = true
      /\ requests (events (OnTick defaults Sample.near16_tick
                             (Sample.globals Sample.bar_before)))
         = [PositionClose; PositionClose; PositionModify (16.05 - 3.0 * 0.2) 17.0]).
Proof. repeat split; reflexivity. Qed.

(** C3: the code at the failing input.  The exit EMA (daily, period
    [InpTrendExitPeriod]) has the latest value 1.10 and the daily trend EMA
    went from 1.11 above it to 1.09 below it, on a long held two hours; but
    [trendExitValue] is the handle of the exit EMA, 16, and nothing is
    closed. *)
Theorem C3_trend_exit_compares_with_handle :
  managed defaults Sample.trend_cross_tick (Sample.globals Sample.bar_before) Sample.old_long
  /\ held defaults Sample.trend_cross_tick Sample.old_long = true
  /\ CopyBuffer Sample.trend_cross_tick
       (iMA Sample.trend_cross_tick PERIOD_D1 (InpTrendExitPeriod defaults)) 0 0 1 = [1.10]
  /\ trend_cross defaults Sample.trend_cross_tick POSITION_TYPE_BUY 1.10 = true
  /\ trendExitValue defaults Sample.trend_cross_tick = 16
  /\ trend_exit defaults Sample.trend_cross_tick POSITION_TYPE_BUY = false
  /\ count is_close
       (events (OnTick defaults Sample.trend_cross_tick (Sample.globals Sample.bar_before)))
     = 0%nat.
Proof. repeat split; reflexivity. Qed.

(** ** The trailing stop over ticks *)

Lemma kept_or_tighter_trans (side : ENUM_POSITION_TYPE) (a b c : float) :
  kept_or_tighter side a b -> kept_or_tighter side b c -> kept_or_tighter side a c.
Proof.
  intros [->|H1] [->|H2]; try (left; reflexivity); try (right; assumption).
  right. destruct side; simpl in *; eauto using FloatOrder.ltb_trans.
Qed.

Lemma kept_or_tighter_not_looser (side : ENUM_POSITION_TYPE) (a b : float) :
  kept_or_tighter side a b -> not_looser side a b.
Proof.
  intros [->|H]; destruct side; simpl in *;
    auto using FloatOrder.ltb_irrefl, FloatOrder.ltb_asym.
Qed.

Lemma kept_or_tighter_number (side : ENUM_POSITION_TYPE) (a b : float) :
  (a =? a) = true -> kept_or_tighter side a b -> (b =? b) = true /\ monotone side a b.
Proof.
  intros N [<-|H].
  - split; [exact N|]. destruct side; simpl; apply FloatOrder.leb_refl, N.
  - destruct side; simpl in *.
    + split; [exact (FloatOrder.ltb_number _ _ H) | exact (FloatOrder.ltb_leb _ _ H)].
    + split; [|exact (FloatOrder.ltb_leb _ _ H)].
      apply FloatOrder.ltb_leb in H as L.
      destruct (b =? b) eqn:E; [reflexivity|].
      rewrite eqb_spec in E. rewrite ltb_spec in H. unfold SFeqb in E. unfold SFltb in H.
      destruct (Prim2SF b) as [sb|sb| |sb mb eb], (Prim2SF a) as [sa|sa| |sa ma ea];
        try discriminate;
        repeat match goal with s : bool |- _ => destruct s end; try discriminate;
        simpl in E; rewrite Z.compare_refl in E;
        change (Pos.compare_cont Eq) with Pos.compare in E;
        rewrite Pos.compare_refl in E; discriminate.
Qed.

Lemma sorted_monotone (side : ENUM_POSITION_TYPE) (l : list float) :
  StronglySorted (kept_or_tighter side) l ->
  Forall (fun a => (a =? a) = true) l ->
  StronglySorted (monotone side) l.
Proof.
  induction 1 as [|a l _ IH F]; intros N; constructor.
  - apply IH. inversion N; assumption.
  - inversion N as [|? ? Na _]; subst.
    eapply Forall_impl; [|exact F].
    intros b K. exact (proj2 (kept_or_tighter_number side a b Na K)).
Qed.

Lemma sorted_numbers (side : ENUM_POSITION_TYPE) (a : float) (l : list float) :
  StronglySorted (kept_or_tighter side) (a :: l) ->
  (a =? a) = true -> Forall (fun b => (b =? b) = true) (a :: l).
Proof.
  intros S N. inversion S as [|? ? _ F]; subst. constructor; [exact N|].
  eapply Forall_impl; [|exact F].
  intros b K. exact (proj1 (kept_or_tighter_number side a b N K)).
Qed.

Lemma stop_after_modifies (sl : float) (evs : list Event) :
  stop_after sl evs = stop_after sl (filter is_modify evs).
Proof.
  revert sl. induction evs as [|e evs IH]; intros sl; [reflexivity|].
  destruct e; simpl; apply IH.
Qed.

Lemma modifies_of_tick (inp : Inputs) (t : Terminal) (g : Globals) (p : Position) :
  PositionSelect t = Some p ->
  filter is_modify (events (OnTick inp t g)) = []
  \/ (trail_signal inp t g p = true
      /\ filter is_modify (events (OnTick inp t g))
         = [PositionModify (newStop inp t g (POSITION_TYPE p)) (POSITION_TP p)]).
Proof.
  intros P.
  destruct (filter is_modify (events (OnTick inp t g))) as [|e l] eqn:F; [left; reflexivity|].
  right.
  assert (I : In e (filter is_modify (events (OnTick inp t g)))) by (rewrite F; left; reflexivity).
  apply filter_In in I. destruct I as (I & K).
  assert (M : managed inp t g p).
  { apply (managed_iff inp t g p P e); [rewrite K; apply orb_true_r | exact I]. }
  rewrite (managed_modifies inp t g p M) in F.
  destruct (trail_signal inp t g p); [|discriminate].
  split; [reflexivity|]. symmetry. exact F.
Qed.

Lemma tick_moves_stop (inp : Inputs) (t : Terminal) (g : Globals) (p : Position) :
  kept_or_tighter (POSITION_TYPE p) (POSITION_SL p)
    (stop_after (POSITION_SL p) (events (OnTick inp (with_position (Some p) t) g))).
Proof.
  rewrite stop_after_modifies.
  destruct (modifies_of_tick inp (with_position (Some p) t) g p eq_refl) as [->|(T & ->)].
  - left. reflexivity.
  - right. unfold trail_signal in T. simpl. unfold tighter.
    destruct (POSITION_TYPE p); exact T.
Qed.

Lemma trail_head (inp : Inputs) (g : Globals) (p : Position) (ticks : list Terminal) :
  exists l, trail inp g p ticks = POSITION_SL p :: l.
Proof. destruct ticks; simpl; eauto. Qed.

Lemma trail_sorted (inp : Inputs) (ticks : list Terminal) :
  forall g p, Sorted (kept_or_tighter (POSITION_TYPE p)) (trail inp g p ticks).
Proof.
  induction ticks as [|t ts IH]; intros g p; simpl.
  - repeat constructor.
  - pose proof (tick_moves_stop inp t g p) as K.
    destruct (OnTick inp (with_position (Some p) t) g) as [evs [g'|]]; simpl in K.
    + constructor.
      * exact (IH g' (moved p evs)).
      * destruct (trail_head inp g' (moved p evs) ts) as (l & ->).
        constructor. exact K.
    + constructor; [repeat constructor | constructor; exact K].
Qed.

(** C4.  A modify request of a tick is the trailing stop's: its stop is the
    candidate ([bid - InpATRMultiplier * ATR] for a long,
    [ask + InpATRMultiplier * ATR] for a short), strictly above the
    position's stop-loss for a long and strictly below it for a short, and
    its take-profit the position's.  Hence over any ticks the stop-loss of a
    position, moved by these requests only, is never lower than at an
    earlier tick for a long and never higher for a short; when it starts as a
    number (not NaN) it is non-decreasing for a long and non-increasing for a
    short. *)
Theorem C4_trailing_stop_never_loosens (inp : Inputs) :
  (forall t g p sl tp,
      PositionSelect t = Some p ->
      In (PositionModify sl tp) (events (OnTick inp t g)) ->
      tp = POSITION_TP p
      /\ match POSITION_TYPE p with
         | POSITION_TYPE_BUY =>
             sl = SYMBOL_BID t - InpATRMultiplier inp * sample (atrValue t g) 0
             /\ (sl >? POSITION_SL p) = true
         | POSITION_TYPE_SELL =>
             sl = SYMBOL_ASK t + InpATRMultiplier inp * sample (atrValue t g) 0
             /\ (sl <? POSITION_SL p) = true
         end)
  /\ (forall g p ticks,
         StronglySorted (not_looser (POSITION_TYPE p)) (trail inp g p ticks))
  /\ (forall g p ticks,
         (POSITION_SL p =? POSITION_SL p) = true ->
         StronglySorted (monotone (POSITION_TYPE p)) (trail inp g p ticks)).
Proof.
  assert (K : forall g p ticks,
             StronglySorted (kept_or_tighter (POSITION_TYPE p)) (trail inp g p ticks)).
  { intros g p ticks. apply Sorted_StronglySorted; [|apply trail_sorted].
    intros a b c. apply kept_or_tighter_trans. }
  split; [|split].
  - intros t g p sl tp P I.
    assert (F : In (PositionModify sl tp) (filter is_modify (events (OnTick inp t g))))
      by (apply filter_In; split; [exact I | reflexivity]).
    destruct (modifies_of_tick inp t g p P) as [E|(T & E)]; rewrite E in F;
      [destruct F|].
    destruct F as [F|[]]. injection F as <- <-. split; [reflexivity|].
    unfold trail_signal in T. unfold newStop, currentATR in *.
    destruct (POSITION_TYPE p); split; auto.
  - intros g p ticks. pose proof (K g p ticks) as S.
    induction S as [|a l _ IH F]; constructor; [exact IH|].
    eapply Forall_impl; [|exact F].
    intros b. apply kept_or_tighter_not_looser.
  - intros g p ticks N. pose proof (K g p ticks) as S.
    apply sorted_monotone; [exact S|].
    destruct (trail_head inp g p ticks) as (l & E). rewrite E in *.
    exact (sorted_numbers _ _ _ S N).
Qed.

(** C4 on a long with stop 1.19 over three bars: the candidate is 1.194, then
    1.189 (left alone), then 1.2 and a bit. *)
Lemma C4_trailing_stop_never_loosens_witness :
  PositionSelect (Sample.rsi_cross_tick Sample.old_long) = Some Sample.old_long
  /\ In (PositionModify 1.194 1.22)
       (events (OnTick defaults (Sample.rsi_cross_tick Sample.old_long)
                  (Sample.globals Sample.bar_before)))
  /\ (1.194 >? POSITION_SL Sample.old_long) = true
  /\ trail defaults (Sample.globals Sample.bar_before) Sample.old_long Sample.trail_ticks
     = [1.19; 1.194; 1.194; 1.203 - 3.0 * 0.0010]
  /\ StronglySorted (not_looser POSITION_TYPE_BUY)
       (trail defaults (Sample.globals Sample.bar_before) Sample.old_long Sample.trail_ticks).
Proof.
  assert (I : In (PositionModify 1.194 1.22)
                (events (OnTick defaults (Sample.rsi_cross_tick Sample.old_long)
                           (Sample.globals Sample.bar_before))))
    by (vm_compute; tauto).
  split; [reflexivity|]. split; [exact I|]. split.
  - exact (proj2 (proj2 (proj1 (C4_trailing_stop_never_loosens defaults)
       (Sample.rsi_cross_tick Sample.old_long) (Sample.globals Sample.bar_before)
       Sample.old_long 1.194 1.22 eq_refl I))).
  - split; [reflexivity|].
    exact (proj1 (proj2 (C4_trailing_stop_never_loosens defaults))
             (Sample.globals Sample.bar_before) Sample.old_long Sample.trail_ticks).
Defined.

(** ** The holding guard *)

Lemma hourly_log_hold_reports (t : Terminal) (g : Globals) :
  count hold_report (hourly_log t g) = 0%nat.
Proof.
  unfold hourly_log. rewrite !read3_spec.
  repeat match goal with |- context [delivered ?n ?a] => destruct (delivered n a) end;
    reflexivity.
Qed.

Lemma Entry_hold_reports (inp : Inputs) (t : Terminal) (trend0 trend1 rsi0 rsi1 : float) :
  count hold_report (events (Entry inp t trend0 trend1 rsi0 rsi1)) = 0%nat.
Proof. unfold Entry, when. case_conditions; reflexivity. Qed.

Lemma managed_hold_reports (inp : Inputs) (t : Terminal) (g : Globals) (p : Position) :
  managed inp t g p ->
  count hold_report (events (OnTick inp t g))
  = (if held inp t p then 0
     else Nat.b2n (rsi_exit inp t (POSITION_TYPE p))
          + Nat.b2n (trend_exit inp t (POSITION_TYPE p)))%nat.
Proof.
  intros (H & N & D & P). rewrite (OnTick_hourly_ok inp t g H). cbn [events fst].
  rewrite count_app, hourly_log_hold_reports. unfold decide.
  unfold new_bar in N. destruct (iTime t PERIOD_H1 0 =? prevBarTime g)%Z; [discriminate|].
  rewrite events_bind, Entry_status, count_app, Entry_hold_reports, P.
  rewrite events_bind, count_app.
  destruct (Manage_daily_ok inp t g p D) as (S & _ & C). rewrite S, C.
  cbn. rewrite Nat.add_0_r. reflexivity.
Qed.

(** [posDuration] is the elapsed time in whole minutes, as long as the
    position was not opened in the future nor more than 2^31 minutes ago. *)
Lemma posDuration_elapsed (t : Terminal) (p : Position) :
  (0 <= TimeCurrent t - POSITION_TIME p < 60 * 2 ^ 31)%Z ->
  posDuration t p = ((TimeCurrent t - POSITION_TIME p) / 60)%Z.
Proof.
  intros R. unfold posDuration, MQL.to_int, MQL.to_long, MQL.wrap.
  set (d := (TimeCurrent t - POSITION_TIME p)%Z) in *.
  change (2 ^ (64 - 1))%Z with 9223372036854775808%Z.
  change (2 ^ 64)%Z with 18446744073709551616%Z.
  change (2 ^ (32 - 1))%Z with 2147483648%Z.
  change (2 ^ 32)%Z with 4294967296%Z.
  change (2 ^ 31)%Z with 2147483648%Z in R.
  rewrite (Z.mod_small (d + 9223372036854775808)) by lia.
  replace (d + 9223372036854775808 - 9223372036854775808)%Z with d by lia.
  rewrite Z.quot_div_nonneg by lia.
  assert (Q : (0 <= d / 60 < 2147483648)%Z).
  { split; [apply Z.div_pos; lia | apply Z.div_lt_upper_bound; lia]. }
  rewrite (Z.mod_small (d / 60 + 2147483648)) by lia. lia.
Qed.

Lemma held_elapsed (inp : Inputs) (t : Terminal) (p : Position) :
  (0 <= TimeCurrent t - POSITION_TIME p < 60 * 2 ^ 31)%Z ->
  held inp t p = (60 * InpMinHoldDuration inp <=? TimeCurrent t - POSITION_TIME p)%Z.
Proof.
  intros R. unfold held. rewrite (posDuration_elapsed t p R), Z.geb_leb.
  set (d := (TimeCurrent t - POSITION_TIME p)%Z) in *.
  destruct (Z.leb_spec (InpMinHoldDuration inp) (d / 60));
    destruct (Z.leb_spec (60 * InpMinHoldDuration inp) d); try reflexivity; exfalso.
  - assert (60 * (d / 60) <= d)%Z by (apply Z.mul_div_le; lia). lia.
  - assert (InpMinHoldDuration inp <= d / 60)%Z by (apply Z.div_le_lower_bound; lia). lia.
Qed.

(** C5 (as amended).  On a tick on which a position is managed and an exit
    (RSI reversal or trend exit) fires: if the position was held for less
    than the minimum duration, no close is sent and each exit that fired is
    reported as held, while the trailing stop is still evaluated and its
    modify request sent when the candidate beats the stop; if it was held
    for the minimum duration, each exit that fired sends a close. *)
Theorem C5_holding_guard (inp : Inputs) (t : Terminal) (g : Globals) (p : Position) :
  managed inp t g p ->
  rsi_exit inp t (POSITION_TYPE p) || trend_exit inp t (POSITION_TYPE p) = true ->
  (held inp t p = false ->
   count is_close (events (OnTick inp t g)) = 0%nat
   /\ (1 <= count hold_report (events (OnTick inp t g)))%nat
   /\ count hold_report (events (OnTick inp t g))
      = (Nat.b2n (rsi_exit inp t (POSITION_TYPE p))
         + Nat.b2n (trend_exit inp t (POSITION_TYPE p)))%nat
   /\ count is_modify (events (OnTick inp t g)) = Nat.b2n (trail_signal inp t g p))
  /\ (held inp t p = true ->
      (1 <= count is_close (events (OnTick inp t g)))%nat
      /\ count is_close (events (OnTick inp t g))
         = (Nat.b2n (rsi_exit inp t (POSITION_TYPE p))
            + Nat.b2n (trend_exit inp t (POSITION_TYPE p)))%nat
      /\ count hold_report (events (OnTick inp t g)) = 0%nat).
Proof.
  intros M F.
  rewrite (managed_closes inp t g p M), (managed_hold_reports inp t g p M),
    (managed_modify_count inp t g p M).
  split; intros ->.
  - repeat split; try reflexivity.
    destruct (rsi_exit inp t (POSITION_TYPE p)), (trend_exit inp t (POSITION_TYPE p));
      simpl; try lia; discriminate.
  - repeat split; try reflexivity.
    destruct (rsi_exit inp t (POSITION_TYPE p)), (trend_exit inp t (POSITION_TYPE p));
      simpl; try lia; discriminate.
Qed.

(** C5 on the daily RSI crossing 50: a long opened ten minutes ago is kept
    and the exit reported; one opened two hours ago is closed. *)
Lemma C5_holding_guard_witness :
  (held defaults (Sample.rsi_cross_tick Sample.young_long) Sample.young_long = false
   /\ count is_close
        (events (OnTick defaults (Sample.rsi_cross_tick Sample.young_long)
                   (Sample.globals Sample.bar_before))) = 0%nat
   /\ (1 <= count hold_report
              (events (OnTick defaults (Sample.rsi_cross_tick Sample.young_long)
                         (Sample.globals Sample.bar_before))))%nat)
  /\ (held defaults (Sample.rsi_cross_tick Sample.old_long) Sample.old_long = true
      /\ (1 <= count is_close
                 (events (OnTick defaults (Sample.rsi_cross_tick Sample.old_long)
                            (Sample.globals Sample.bar_before))))%nat).
Proof.
  assert (My : managed defaults (Sample.rsi_cross_tick Sample.young_long)
                 (Sample.globals Sample.bar_before) Sample.young_long)
    by (repeat split; reflexivity).
  assert (Mo : managed defaults (Sample.rsi_cross_tick Sample.old_long)
                 (Sample.globals Sample.bar_before) Sample.old_long)
    by (repeat split; reflexivity).
  split.
  - split; [reflexivity|].
    pose proof (proj1 (C5_holding_guard defaults _ _ _ My eq_refl) eq_refl) as (C & R & _).
    split; [exact C | exact R].
  - split; [reflexivity|].
    exact (proj1 (proj2 (C5_holding_guard defaults _ _ _ Mo eq_refl) eq_refl)).
Defined.

(** C5 as it was stated fails: the daily RSI exit fires on a long opened ten
    minutes ago, nothing is closed, and the tick still sends a modify
    request, the trailing stop's. *)
Lemma C5_counterexample :
  managed defaults (Sample.rsi_cross_tick Sample.young_long)
    (Sample.globals Sample.bar_before) Sample.young_long
  /\ rsi_exit defaults (Sample.rsi_cross_tick Sample.young_long) POSITION_TYPE_BUY = true
  /\ posDuration (Sample.rsi_cross_tick Sample.young_long) Sample.young_long = 10%Z
  /\ InpMinHoldDuration defaults = 60%Z
  /\ requests (events (OnTick defaults (Sample.rsi_cross_tick Sample.young_long)
                         (Sample.globals Sample.bar_before)))
     = [PositionModify 1.194 1.22]
  /\ count is_modify (events (OnTick defaults (Sample.rsi_cross_tick Sample.young_long)
                                (Sample.globals Sample.bar_before))) = 1%nat.
Proof. repeat split; reflexivity. Qed.

(** ** The new-bar check *)

(** C6.  On a tick whose hourly bar opened at the time of the last processed
    bar, neither an open-long nor an open-short is requested (nor anything
    else), and the tick leaves [prevBarTime] as it was: any further ticks of
    the bar request no entry either. *)
Theorem C6_no_entry_within_bar (inp : Inputs) (t : Terminal) (g : Globals)
    (ts : list Terminal) :
  iTime t PERIOD_H1 0 = prevBarTime g ->
  Forall (fun t' => iTime t' PERIOD_H1 0 = prevBarTime g) ts ->
  filter is_buy (events (OnTick inp t g)) = []
  /\ filter is_sell (events (OnTick inp t g)) = []
  /\ (forall g', status (OnTick inp t g) = Done g' -> g' = g)
  /\ filter is_buy (run inp g (t :: ts)) = []
  /\ filter is_sell (run inp g (t :: ts)) = [].
Proof.
  intros E F.
  destruct (same_bar_tick inp t g E) as (R & S).
  assert (R' : requests (run inp g (t :: ts)) = [])
    by (apply (same_bar_run inp (prevBarTime g)); [constructor; assumption | reflexivity]).
  rewrite <- (filter_requests is_buy (events (OnTick inp t g))),
    <- (filter_requests is_sell (events (OnTick inp t g))),
    <- (filter_requests is_buy (run inp g (t :: ts))),
    <- (filter_requests is_sell (run inp g (t :: ts))) by auto with requests.
  rewrite R, R'. repeat (split; [reflexivity|]). split; [|split; reflexivity].
  intros g' D. destruct S as [S|S]; congruence.
Qed.

(** C6 on the long signal of the specification, on a second and a third tick
    of the bar. *)
Lemma C6_no_entry_within_bar_witness :
  iTime (Sample.long_tick (Sample.bar + 65) [0.0020] [] [] [] None) PERIOD_H1 0
    = prevBarTime (Sample.globals Sample.bar)
  /\ long_signal defaults (Sample.long_tick (Sample.bar + 65) [0.0020] [] [] [] None)
       (Sample.globals Sample.bar) = true
  /\ filter is_buy
       (run defaults (Sample.globals Sample.bar)
          [Sample.long_tick (Sample.bar + 65) [0.0020] [] [] [] None;
           Sample.long_tick (Sample.bar + 125) [0.0020] [] [] [] None]) = [].
Proof.
  split; [reflexivity|]. split; [reflexivity|].
  apply (C6_no_entry_within_bar defaults
           (Sample.long_tick (Sample.bar + 65) [0.0020] [] [] [] None)
           (Sample.globals Sample.bar)
           [Sample.long_tick (Sample.bar + 125) [0.0020] [] [] [] None]);
    [reflexivity | repeat constructor].
Defined.

Lemma same_bar_events (inp : Inputs) (t : Terminal) (g : Globals) :
  hourly_ok t g = true -> new_bar t g = false ->
  OnTick inp t g = (hourly_log t g, Done g).
Proof.
  intros H N. rewrite (OnTick_hourly_ok inp t g H). unfold decide.
  unfold new_bar in N. destruct (iTime t PERIOD_H1 0 =? prevBarTime g)%Z; [|discriminate].
  cbn. rewrite app_nil_r. reflexivity.
Qed.

(** C7 (as amended).  With a position selected and every series delivered,
    the exit and trailing checks are made on the ticks that start a new
    hourly bar, after the entry checks; on a tick of the bar already
    processed the handler returns after its five log lines, before the entry
    checks and the position management alike: nothing is closed or
    modified. *)
Theorem C7_management_only_on_new_bar (inp : Inputs) (t : Terminal) (g : Globals)
    (p : Position) :
  PositionSelect t = Some p -> hourly_ok t g = true -> daily_ok inp t = true ->
  (new_bar t g = true ->
   requests (events (OnTick inp t g)) = entry_requests inp t g ++ manage_requests inp t g p)
  /\ (new_bar t g = false ->
      OnTick inp t g = (hourly_log t g, Done g)
      /\ count is_close (events (OnTick inp t g)) = 0%nat
      /\ count is_modify (events (OnTick inp t g)) = 0%nat).
Proof.
  intros P H D. split; intros N.
  - apply managed_requests. repeat split; assumption.
  - split; [exact (same_bar_events inp t g H N)|].
    rewrite (count_requests is_close), (count_requests is_modify) by auto with requests.
    rewrite OnTick_requests. unfold tick_requests. rewrite H, N. split; reflexivity.
Qed.

(** C7 on the daily RSI crossing 50 with a long held two hours: closed and
    trailed on the first tick of the bar, left alone on a later one. *)
Lemma C7_management_only_on_new_bar_witness :
  (new_bar (Sample.rsi_cross_tick Sample.old_long) (Sample.globals Sample.bar_before) = true
   /\ requests (events (OnTick defaults (Sample.rsi_cross_tick Sample.old_long)
                          (Sample.globals Sample.bar_before)))
      = [PositionClose; PositionModify 1.194 1.22])
  /\ (new_bar (Sample.rsi_cross_tick Sample.old_long) (Sample.globals Sample.bar) = false
      /\ count is_close (events (OnTick defaults (Sample.rsi_cross_tick Sample.old_long)
                                   (Sample.globals Sample.bar))) = 0%nat).
Proof.
  split.
  - split; [reflexivity|].
    exact (proj1 (C7_management_only_on_new_bar defaults
                    (Sample.rsi_cross_tick Sample.old_long)
                    (Sample.globals Sample.bar_before) Sample.old_long
                    eq_refl eq_refl eq_refl) eq_refl).
  - split; [reflexivity|].
    exact (proj1 (proj2 (proj2 (C7_management_only_on_new_bar defaults
                    (Sample.rsi_cross_tick Sample.old_long)
                    (Sample.globals Sample.bar) Sample.old_long
                    eq_refl eq_refl eq_refl) eq_refl))).
Defined.

(** C7 as it was stated fails: on a tick of the bar already processed, with a
    long held two hours, the daily RSI exit firing and the trailing candidate
    above the stop, the handler logs the hourly values and returns. *)
Lemma C7_counterexample :
  PositionSelect (Sample.rsi_cross_tick Sample.old_long) = Some Sample.old_long
  /\ iTime (Sample.rsi_cross_tick Sample.old_long) PERIOD_H1 0
     = prevBarTime (Sample.globals Sample.bar)
  /\ held defaults (Sample.rsi_cross_tick Sample.old_long) Sample.old_long = true
  /\ rsi_exit defaults (Sample.rsi_cross_tick Sample.old_long) POSITION_TYPE_BUY = true
  /\ trail_signal defaults (Sample.rsi_cross_tick Sample.old_long)
       (Sample.globals Sample.bar) Sample.old_long = true
  /\ OnTick defaults (Sample.rsi_cross_tick Sample.old_long) (Sample.globals Sample.bar)
     = (hourly_log (Sample.rsi_cross_tick Sample.old_long) (Sample.globals Sample.bar),
        Done (Sample.globals Sample.bar))
  /\ requests (hourly_log (Sample.rsi_cross_tick Sample.old_long)
                 (Sample.globals Sample.bar)) = [].
Proof. repeat split; reflexivity. Qed.

(** ** Series that come back short *)

(** C8 (as amended).  When a series the tick reads came back short, the tick
    ends in the critical error "array out of range" and sends no close and no
    modify request.  If the short series is an hourly one, it sends no request
    at all; if it is a daily one, the entry checks were made before it was
    read and their requests were sent. *)
Theorem C8_short_series (inp : Inputs) (t : Terminal) (g : Globals) :
  fetch_short inp t g = true ->
  status (OnTick inp t g) = ArrayOutOfRange
  /\ count is_close (events (OnTick inp t g)) = 0%nat
  /\ count is_modify (events (OnTick inp t g)) = 0%nat
  /\ requests (events (OnTick inp t g))
     = (if hourly_ok t g then entry_requests inp t g else []).
Proof.
  intros F.
  rewrite (count_requests is_close), (count_requests is_modify) by auto with requests.
  rewrite OnTick_status, OnTick_requests. unfold tick_status, tick_requests.
  unfold fetch_short in F.
  destruct (entry_requests_kinds inp t g) as (_ & _ & C & M).
  destruct (hourly_ok t g); [|repeat split; reflexivity].
  cbn [negb orb andb] in *.
  destruct (new_bar t g); [|discriminate].
  destruct (daily_ok inp t); [discriminate|].
  destruct (PositionSelect t); [|discriminate].
  rewrite app_nil_r. unfold count. rewrite C, M. repeat split; reflexivity.
Qed.

(** C8 with the ATR series empty (nothing is sent), and with the daily RSI
    series empty on a long signal (the open-long is sent, then the expert
    stops). *)
Lemma C8_short_series_witness :
  (fetch_short defaults (Sample.long_tick (Sample.bar + 5) [] [] [] [] None)
     (Sample.globals Sample.bar_before) = true
   /\ status (OnTick defaults (Sample.long_tick (Sample.bar + 5) [] [] [] [] None)
                (Sample.globals Sample.bar_before)) = ArrayOutOfRange)
  /\ (fetch_short defaults
        (Sample.long_tick (Sample.bar + 5) [0.0020] [1.09; 1.11; 1.12] [] [1.08]
           (Some Sample.old_long))
        (Sample.globals Sample.bar_before) = true
      /\ count is_close
           (events (OnTick defaults
                      (Sample.long_tick (Sample.bar + 5) [0.0020] [1.09; 1.11; 1.12] []
                         [1.08] (Some Sample.old_long))
                      (Sample.globals Sample.bar_before))) = 0%nat).
Proof.
  split.
  - split; [reflexivity|].
    exact (proj1 (C8_short_series defaults
                    (Sample.long_tick (Sample.bar + 5) [] [] [] [] None)
                    (Sample.globals Sample.bar_before) eq_refl)).
  - split; [reflexivity|].
    exact (proj1 (proj2 (C8_short_series defaults
                    (Sample.long_tick (Sample.bar + 5) [0.0020] [1.09; 1.11; 1.12] []
                       [1.08] (Some Sample.old_long))
                    (Sample.globals Sample.bar_before) eq_refl))).
Defined.

(** C8 as it was stated fails: the daily RSI series comes back empty on a new
    bar with a long signal and a position selected; the open-long has been
    requested by the time the series is read, and the tick ends in the
    critical error. *)
Lemma C8_counterexample :
  rsiValueHigher defaults
    (Sample.long_tick (Sample.bar + 5) [0.0020] [1.09; 1.11; 1.12] [] [1.08]
       (Some Sample.old_long)) = []
  /\ requests
       (events (OnTick defaults
                  (Sample.long_tick (Sample.bar + 5) [0.0020] [1.09; 1.11; 1.12] [] [1.08]
                     (Some Sample.old_long))
                  (Sample.globals Sample.bar_before)))
     = [Buy 0.1 1.2002 1.195 (1.2002 + 100 * 0.0001) "Trend EA Long"]
  /\ status
       (OnTick defaults
          (Sample.long_tick (Sample.bar + 5) [0.0020] [1.09; 1.11; 1.12] [] [1.08]
             (Some Sample.old_long))
          (Sample.globals Sample.bar_before)) = ArrayOutOfRange.
Proof. repeat split; reflexivity. Qed.

(** ** After a close request *)

(** C9 (as amended).  A close request does not end the management of the
    tick: on a tick that sends one, the checks after it are still made.  The
    tick carries one close for each exit that fired, and the trailing stop's
    modify request exactly when the candidate beats the stop-loss that
    [PositionSelect] copied, sent after the closes. *)
Theorem C9_close_does_not_short_circuit (inp : Inputs) (t : Terminal) (g : Globals)
    (p : Position) :
  PositionSelect t = Some p ->
  In PositionClose (events (OnTick inp t g)) ->
  count is_modify (events (OnTick inp t g)) = Nat.b2n (trail_signal inp t g p)
  /\ count is_close (events (OnTick inp t g))
     = (Nat.b2n (rsi_exit inp t (POSITION_TYPE p))
        + Nat.b2n (trend_exit inp t (POSITION_TYPE p)))%nat
  /\ (trail_signal inp t g p = true ->
      exists l,
        In PositionClose l
        /\ requests (events (OnTick inp t g))
           = l ++ [PositionModify (newStop inp t g (POSITION_TYPE p)) (POSITION_TP p)]).
Proof.
  intros P I.
  assert (M : managed inp t g p) by (apply (managed_iff inp t g p P PositionClose); auto).
  assert (R : In PositionClose (requests (events (OnTick inp t g))))
    by (apply filter_In; split; [exact I | reflexivity]).
  split; [exact (managed_modify_count inp t g p M)|]. split.
  - rewrite (managed_closes inp t g p M).
    destruct (held inp t p) eqn:H; [reflexivity|].
    assert (C : In PositionClose (filter is_close (events (OnTick inp t g))))
      by (apply filter_In; split; [exact I | reflexivity]).
    pose proof (managed_closes inp t g p M) as K. rewrite H in K. unfold count in K.
    destruct (filter is_close (events (OnTick inp t g))); [destruct C | discriminate].
  - intros T. rewrite (managed_requests inp t g p M) in *.
    unfold manage_requests in *. rewrite T in *.
    exists (entry_requests inp t g
            ++ exit_requests inp t p (rsi_exit inp t (POSITION_TYPE p))
            ++ exit_requests inp t p (trend_exit inp t (POSITION_TYPE p))).
    split; [|rewrite <- !app_assoc; reflexivity].
    rewrite !app_assoc in R. apply in_app_or in R. destruct R as [R|[R|[]]].
    + rewrite <- app_assoc in R. exact R.
    + discriminate.
Qed.

(** C9 on the daily RSI crossing 50 with a long held two hours, bid 1.2 and
    ATR 0.002: the close, then the modify to 1.194. *)
Lemma C9_close_does_not_short_circuit_witness :
  PositionSelect (Sample.rsi_cross_tick Sample.old_long) = Some Sample.old_long
  /\ In PositionClose
       (events (OnTick defaults (Sample.rsi_cross_tick Sample.old_long)
                  (Sample.globals Sample.bar_before)))
  /\ count is_modify
       (events (OnTick defaults (Sample.rsi_cross_tick Sample.old_long)
                  (Sample.globals Sample.bar_before))) = 1%nat.
Proof.
  assert (I : In PositionClose
                (events (OnTick defaults (Sample.rsi_cross_tick Sample.old_long)
                           (Sample.globals Sample.bar_before))))
    by (vm_compute; tauto).
  split; [reflexivity|]. split; [exact I|].
  exact (proj1 (C9_close_does_not_short_circuit defaults
                  (Sample.rsi_cross_tick Sample.old_long)
                  (Sample.globals Sample.bar_before) Sample.old_long eq_refl I)).
Defined.

(** C9 as it was stated fails: the tick sends a close and, after it, a modify
    for the same position. *)
Lemma C9_counterexample :
  requests (events (OnTick defaults (Sample.rsi_cross_tick Sample.old_long)
                      (Sample.globals Sample.bar_before)))
  = [PositionClose; PositionModify 1.194 (POSITION_TP Sample.old_long)].
Proof. reflexivity. Qed.

(** ** The two entry checks *)

Lemma signals_exclusive (inp : Inputs) (t : Terminal) (g : Globals) :
  long_signal inp t g && short_signal inp t g = false.
Proof.
  unfold long_signal, short_signal.
  destruct (sample (trendValue t g) 0 >? sample (trendValue t g) 1) eqn:E; [|reflexivity].
  rewrite (FloatOrder.ltb_asym _ _ E). cbn [andb]. apply andb_false_r.
Qed.

Lemma existsb_filter (f : Event -> bool) (l : list Event) :
  existsb f l = match filter f l with [] => false | _ => true end.
Proof.
  induction l as [|e l IH]; [reflexivity|]. simpl. destruct (f e); [reflexivity | exact IH].
Qed.

Lemma entries_exclusive (inp : Inputs) (t : Terminal) (g : Globals) :
  existsb is_buy (events (OnTick inp t g)) && existsb is_sell (events (OnTick inp t g))
  = false.
Proof.
  rewrite !existsb_filter.
  destruct (hourly_ok t g && new_bar t g) eqn:HN.
  - apply andb_prop in HN. destruct HN as (H & N).
    destruct (tick_entries inp t g H N) as (-> & ->).
    pose proof (signals_exclusive inp t g) as X.
    destruct (long_signal inp t g), (short_signal inp t g); try reflexivity; discriminate.
  - assert (R : requests (events (OnTick inp t g)) = [])
      by (rewrite OnTick_requests; unfold tick_requests; rewrite HN; reflexivity).
    rewrite <- (filter_requests is_buy (events (OnTick inp t g))) by auto with requests.
    rewrite R. reflexivity.
Qed.

(** C10 (as amended).  The entry checks look at no position: on a new bar
    with the hourly series delivered, the open-long and open-short requests of
    the tick are those of the two signals whatever [PositionSelect] answers,
    so an entry is requested with a position already open (here a long, on
    the long signal of the specification).  The two checks have no exclusion
    of their own, but their conditions exclude each other (sample 0 of the
    trend EMA is above sample 1 for one, below it for the other): no tick
    requests both an open-long and an open-short. *)
Theorem C10_entries_unguarded_but_exclusive :
  (forall inp t g pos,
      hourly_ok t g = true -> new_bar t g = true ->
      filter is_buy (events (OnTick inp (with_position pos t) g))
        = (if long_signal inp t g then [long_request inp t] else [])
      /\ filter is_sell (events (OnTick inp (with_position pos t) g))
        = (if short_signal inp t g then [short_request inp t] else []))
  /\ (forall inp t g,
         existsb is_buy (events (OnTick inp t g))
         && existsb is_sell (events (OnTick inp t g)) = false)
  /\ (PositionSelect
        (Sample.long_tick (Sample.bar + 5) [0.0020] [1.09; 1.11; 1.12] [55; 56; 57] [1.08]
           (Some Sample.old_long)) = Some Sample.old_long
      /\ requests
           (events (OnTick defaults
                      (Sample.long_tick (Sample.bar + 5) [0.0020] [1.09; 1.11; 1.12]
                         [55; 56; 57] [1.08] (Some Sample.old_long))
                      (Sample.globals Sample.bar_before)))
         = [Buy 0.1 1.2002 1.195 (1.2002 + 100 * 0.0001) "Trend EA Long";
            PositionModify 1.194 1.22]).
Proof.
  split; [|split].
  - intros inp t g pos H N.
    exact (tick_entries inp (with_position pos t) g H N).
  - exact entries_exclusive.
  - split; reflexivity.
Qed.

(** C10 on the long signal of the specification, flat and with a long open:
    the same open-long. *)
Lemma C10_entries_unguarded_but_exclusive_witness :
  hourly_ok (Sample.long_tick (Sample.bar + 5) [0.0020] [] [] [] None)
    (Sample.globals Sample.bar_before) = true
  /\ new_bar (Sample.long_tick (Sample.bar + 5) [0.0020] [] [] [] None)
       (Sample.globals Sample.bar_before) = true
  /\ filter is_buy
       (events (OnTick defaults
                  (with_position (Some Sample.old_long)
                     (Sample.long_tick (Sample.bar + 5) [0.0020] [] [] [] None))
                  (Sample.globals Sample.bar_before)))
     = [Buy 0.1 1.2002 1.195 (1.2002 + 100 * 0.0001) "Trend EA Long"].
Proof.
  split; [reflexivity|]. split; [reflexivity|].
  exact (proj1 (proj1 C10_entries_unguarded_but_exclusive defaults
                  (Sample.long_tick (Sample.bar + 5) [0.0020] [] [] [] None)
                  (Sample.globals Sample.bar_before) (Some Sample.old_long)
                  eq_refl eq_refl)).
Defined.

(** C10 as it was stated fails in its first half: there is no tick on which
    both an open-long and an open-short are requested. *)
Lemma C10_counterexample :
  ~ (exists inp t g,
        existsb is_buy (events (OnTick inp t g)) = true
        /\ existsb is_sell (events (OnTick inp t g)) = true).
Proof.
  intros (inp & t & g & B & S).
  pose proof (entries_exclusive inp t g) as X. rewrite B, S in X. discriminate.
Qed.

(** ** Further properties *)

(** X1.  The holding guard compares whole elapsed minutes: for a position
    opened at most 2^31 minutes before the tick (and not after it), the guard
    passes exactly when at least [InpMinHoldDuration] times 60 seconds have
    gone by since the position was opened. *)
Theorem X1_hold_is_elapsed_minutes (inp : Inputs) (t : Terminal) (p : Position) :
  (0 <= TimeCurrent t - POSITION_TIME p < 60 * 2 ^ 31)%Z ->
  posDuration t p = ((TimeCurrent t - POSITION_TIME p) / 60)%Z
  /\ held inp t p = (60 * InpMinHoldDuration inp <=? TimeCurrent t - POSITION_TIME p)%Z.
Proof.
  intros R. split; [exact (posDuration_elapsed t p R) | exact (held_elapsed inp t p R)].
Qed.

(** X1 one second short of the hour: 59 minutes, held back. *)
Lemma X1_hold_is_elapsed_minutes_witness :
  (0 <= TimeCurrent (Sample.rsi_cross_tick (Sample.long 1.19 1.22 (Sample.bar - 3594)))
        - POSITION_TIME (Sample.long 1.19 1.22 (Sample.bar - 3594))
   < 60 * 2 ^ 31)%Z
  /\ posDuration (Sample.rsi_cross_tick (Sample.long 1.19 1.22 (Sample.bar - 3594)))
       (Sample.long 1.19 1.22 (Sample.bar - 3594)) = 59%Z
  /\ held defaults (Sample.rsi_cross_tick (Sample.long 1.19 1.22 (Sample.bar - 3594)))
       (Sample.long 1.19 1.22 (Sample.bar - 3594)) = false.
Proof.
  assert (R : (0 <= TimeCurrent (Sample.rsi_cross_tick (Sample.long 1.19 1.22 (Sample.bar - 3594)))
                    - POSITION_TIME (Sample.long 1.19 1.22 (Sample.bar - 3594))
               < 60 * 2 ^ 31)%Z) by (vm_compute; split; [discriminate | reflexivity]).
  split; [exact R|].
  exact (X1_hold_is_elapsed_minutes defaults
           (Sample.rsi_cross_tick (Sample.long 1.19 1.22 (Sample.bar - 3594)))
           (Sample.long 1.19 1.22 (Sample.bar - 3594)) R).
Defined.

(** X2.  The requests of a tick and the way it ends, in full: nothing unless
    the hourly series were delivered and the bar is new; then the entry
    requests, followed, when a position is selected and the daily series were
    delivered, by a close for each exit that fired on a position held long
    enough and by the trailing stop's modify.  The tick ends in the critical
    error exactly when a series it reads came back short. *)
Theorem X2_requests_of_a_tick (inp : Inputs) (t : Terminal) (g : Globals) :
  requests (events (OnTick inp t g))
  = (if hourly_ok t g && new_bar t g then
       entry_requests inp t g
       ++ match PositionSelect t with
          | Some p => if daily_ok inp t then manage_requests inp t g p else []
          | None => []
          end
     else [])
  /\ status (OnTick inp t g)
     = (if fetch_short inp t g then ArrayOutOfRange
        else if new_bar t g then Done (set_prevBarTime (iTime t PERIOD_H1 0) g)
        else Done g).
Proof.
  split; [exact (OnTick_requests inp t g)|].
  rewrite OnTick_status. unfold tick_status, fetch_short.
  destruct (hourly_ok t g), (new_bar t g), (PositionSelect t), (daily_ok inp t);
    reflexivity.
Qed.

(** ** The bar clock and the handles *)

Lemma set_prevBarTime_same (g : Globals) : set_prevBarTime (prevBarTime g) g = g.
Proof. destruct g; reflexivity. Qed.

Lemma tick_done (inp : Inputs) (t : Terminal) (g g' : Globals) :
  status (OnTick inp t g) = Done g' ->
  g' = set_prevBarTime (iTime t PERIOD_H1 0) g.
Proof.
  rewrite OnTick_status. unfold tick_status, new_bar.
  destruct (hourly_ok t g); [|discriminate].
  destruct (Z.eqb_spec (iTime t PERIOD_H1 0) (prevBarTime g)) as [E|_]; cbn [negb].
  - intros [= <-]. rewrite E. symmetry. apply set_prevBarTime_same.
  - destruct (PositionSelect t); [destruct (daily_ok inp t)|];
      try discriminate; intros [= <-]; reflexivity.
Qed.

Lemma final_handles (inp : Inputs) (ticks : list Terminal) :
  forall g, exists b, final inp g ticks = set_prevBarTime b g.
Proof.
  induction ticks as [|t ts IH]; intros g; simpl.
  - exists (prevBarTime g). symmetry. apply set_prevBarTime_same.
  - pose proof (tick_done inp t g) as D. unfold status in D.
    destruct (OnTick inp t g) as [evs [g'|]]; simpl in D.
    + destruct (IH g') as (b & ->). exists b. rewrite (D g' eq_refl). reflexivity.
    + exists (prevBarTime g). symmetry. apply set_prevBarTime_same.
Qed.

(** X3.  A tick that returns leaves the four indicator handles as they were
    and [prevBarTime] at the open time of the tick's hourly bar, whether the
    bar was new or not. *)
Theorem X3_tick_sets_bar_clock (inp : Inputs) (t : Terminal) (g g' : Globals) :
  status (OnTick inp t g) = Done g' ->
  trendHandle g' = trendHandle g /\ rsiHandle g' = rsiHandle g
  /\ macdHandle g' = macdHandle g /\ atrHandle g' = atrHandle g
  /\ prevBarTime g' = iTime t PERIOD_H1 0.
Proof. intros D. rewrite (tick_done inp t g g' D). repeat split. Qed.

(** X3 on the first tick of a bar. *)
Lemma X3_tick_sets_bar_clock_witness :
  status (OnTick defaults (Sample.long_tick (Sample.bar + 5) [0.0020] [] [] [] None)
            (Sample.globals Sample.bar_before))
  = Done (Sample.globals Sample.bar)
  /\ prevBarTime (Sample.globals Sample.bar) = Sample.bar.
Proof.
  assert (D : status (OnTick defaults
                        (Sample.long_tick (Sample.bar + 5) [0.0020] [] [] [] None)
                        (Sample.globals Sample.bar_before))
              = Done (Sample.globals Sample.bar)) by reflexivity.
  split; [exact D|].
  exact (proj2 (proj2 (proj2 (proj2
    (X3_tick_sets_bar_clock defaults _ _ _ D))))).
Defined.

(** X4.  Whatever ticks come between them, [OnDeinit] releases the four
    handles [OnInit] stored, in the order trend EMA, RSI, MACD, ATR: no tick
    changes a handle. *)
Theorem X4_deinit_releases_init_handles (inp : Inputs) (t0 : Terminal)
    (ticks : list Terminal) :
  OnDeinit (final inp (snd (snd (OnInit inp t0))) ticks)
  = [IndicatorRelease (iMA t0 PERIOD_H1 (InpTrendPeriod inp));
     IndicatorRelease (iRSI t0 PERIOD_H1 (InpRSIPeriod inp));
     IndicatorRelease (iMACD t0 PERIOD_H1 (InpMACDFastPeriod inp) (InpMACDSlowPeriod inp)
                         (InpMACDSignalPeriod inp));
     IndicatorRelease (iATR t0 PERIOD_H1 (InpATRPeriod inp))].
Proof.
  destruct (final_handles inp ticks (snd (snd (OnInit inp t0)))) as (b & ->).
  unfold OnInit.
  match goal with |- context [if ?c then _ else _] => destruct c end; reflexivity.
Qed.

(** ** Requests per bar *)

Lemma entry_is_request e : is_entry e = true -> is_request e = true.
Proof. destruct e; cbv; congruence. Qed.

#[local] Hint Resolve entry_is_request : requests.

Lemma tick_counts (inp : Inputs) (t : Terminal) (g : Globals) :
  (count is_entry (events (OnTick inp t g)) <= Nat.b2n (new_bar t g))%nat
  /\ (count is_close (events (OnTick inp t g)) <= 2 * Nat.b2n (new_bar t g))%nat
  /\ (count is_modify (events (OnTick inp t g)) <= Nat.b2n (new_bar t g))%nat.
Proof.
  rewrite (count_requests is_entry), (count_requests is_close), (count_requests is_modify)
    by auto with requests.
  rewrite OnTick_requests. unfold tick_requests.
  destruct (hourly_ok t g); cbn [andb]; [|cbn; lia].
  destruct (new_bar t g); [|cbn; lia].
  rewrite !count_app.
  pose proof (signals_exclusive inp t g) as X.
  assert (E : (count is_entry (entry_requests inp t g) <= 1)%nat
              /\ count is_close (entry_requests inp t g) = 0%nat
              /\ count is_modify (entry_requests inp t g) = 0%nat).
  { unfold entry_requests.
    destruct (long_signal inp t g), (short_signal inp t g); try discriminate;
      cbn; repeat split; lia. }
  destruct E as (E1 & -> & ->).
  destruct (PositionSelect t) as [p|]; [destruct (daily_ok inp t)|];
    try (cbn; lia).
  assert (M : count is_entry (manage_requests inp t g p) = 0%nat
              /\ (count is_close (manage_requests inp t g p) <= 2)%nat
              /\ (count is_modify (manage_requests inp t g p) <= 1)%nat).
  { unfold manage_requests, exit_requests.
    destruct (rsi_exit inp t (POSITION_TYPE p)), (trend_exit inp t (POSITION_TYPE p)),
      (held inp t p), (trail_signal inp t g p); cbn; repeat split; lia. }
  destruct M as (-> & M2 & M3). cbn [Nat.b2n]. lia.
Qed.

(** X5.  Over any ticks, the expert requests at most one entry (open-long or
    open-short), at most two closes and at most one stop modification for
    each tick that opens on another hourly bar than the tick before it. *)
Theorem X5_requests_per_bar (inp : Inputs) (ticks : list Terminal) (g : Globals) :
  (count is_entry (run inp g ticks) <= bar_changes (prevBarTime g) ticks)%nat
  /\ (count is_close (run inp g ticks) <= 2 * bar_changes (prevBarTime g) ticks)%nat
  /\ (count is_modify (run inp g ticks) <= bar_changes (prevBarTime g) ticks)%nat.
Proof.
  revert g. induction ticks as [|t ts IH]; intros g; [cbn; lia|].
  cbn [run bar_changes].
  pose proof (tick_counts inp t g) as (C1 & C2 & C3).
  pose proof (tick_done inp t g) as D. unfold status, events, new_bar in *.
  destruct (OnTick inp t g) as [evs [g'|]]; cbn [fst snd] in *.
  - rewrite (D g' eq_refl) in *. clear D.
    specialize (IH (set_prevBarTime (iTime t PERIOD_H1 0) g)).
    cbn [prevBarTime set_prevBarTime] in IH. rewrite !count_app.
    destruct (iTime t PERIOD_H1 0 =? prevBarTime g)%Z; cbn [negb Nat.b2n] in *; lia.
  - destruct (iTime t PERIOD_H1 0 =? prevBarTime g)%Z; cbn [negb Nat.b2n] in *; lia.
Qed.

(** ** The MACD buffers *)

Lemma with_macd_arrays (inp : Inputs) (t : Terminal) (g : Globals) (main signal : list float) :
  macdHandle g <> trendHandle g -> macdHandle g <> rsiHandle g ->
  macdHandle g <> atrHandle g ->
  macdHandle g <> trendHandleHigher inp t -> macdHandle g <> rsiHandleHigher inp t ->
  trendValue (with_macd main signal g t) g = trendValue t g
  /\ rsiValue (with_macd main signal g t) g = rsiValue t g
  /\ atrValue (with_macd main signal g t) g = atrValue t g
  /\ macdMain (with_macd main signal g t) g = main
  /\ macdSignal (with_macd main signal g t) g = signal
  /\ trendValueHigher inp (with_macd main signal g t) = trendValueHigher inp t
  /\ rsiValueHigher inp (with_macd main signal g t) = rsiValueHigher inp t.
Proof.
  intros H1 H2 H3 H4 H5.
  unfold trendValue, rsiValue, atrValue, macdMain, macdSignal, trendValueHigher,
    rsiValueHigher, trendHandleHigher, rsiHandleHigher in *.
  cbn [with_macd CopyBuffer iMA iRSI].
  rewrite (Z.eqb_refl (macdHandle g)).
  repeat split; try reflexivity;
    match goal with
    | |- (if (?h =? ?m)%Z then _ else _) = _ =>
        destruct (Z.eqb_spec h m) as [E|_]; [exfalso; congruence | reflexivity]
    end.
Qed.

(** X6.  The MACD values take no part in any decision.  On a terminal whose
    MACD handle is not also the handle of another series the tick reads, a
    tick with other values in the two MACD buffers sends the same requests
    and ends the same way, provided both buffers hold three samples before
    and after: the buffers are only read for the log. *)
Theorem X6_macd_values_unused (inp : Inputs) (t : Terminal) (g : Globals)
    (main signal : list float) :
  macdHandle g <> trendHandle g -> macdHandle g <> rsiHandle g ->
  macdHandle g <> atrHandle g ->
  macdHandle g <> trendHandleHigher inp t -> macdHandle g <> rsiHandleHigher inp t ->
  delivered 3 (macdMain t g) = true -> delivered 3 (macdSignal t g) = true ->
  delivered 3 main = true -> delivered 3 signal = true ->
  requests (events (OnTick inp (with_macd main signal g t) g))
    = requests (events (OnTick inp t g))
  /\ status (OnTick inp (with_macd main signal g t) g) = status (OnTick inp t g).
Proof.
  intros H1 H2 H3 H4 H5 M S M' S'.
  destruct (with_macd_arrays inp t g main signal H1 H2 H3 H4 H5)
    as (A1 & A2 & A3 & A4 & A5 & A6 & A7).
  rewrite !OnTick_requests, !OnTick_status.
  unfold tick_requests, tick_status, hourly_ok, daily_ok, entry_requests, manage_requests,
    exit_requests, long_signal, short_signal, rsi_exit, trend_exit, trend_cross,
    trail_signal, newStop, currentATR.
  rewrite A1, A2, A3, A4, A5, A6, A7, M, S, M', S'.
  split; reflexivity.
Qed.

(** X6 on the long signal of the specification, with the MACD main line below
    its signal line instead of above it: the same open-long. *)
Lemma X6_macd_values_unused_witness :
  requests
    (events (OnTick defaults
               (with_macd [-0.0012; -0.0010; 0.0008] [0.0009; 0.0009; 0.0008]
                  (Sample.globals Sample.bar_before)
                  (Sample.long_tick (Sample.bar + 5) [0.0020] [] [] [] None))
               (Sample.globals Sample.bar_before)))
  = requests
      (events (OnTick defaults (Sample.long_tick (Sample.bar + 5) [0.0020] [] [] [] None)
                 (Sample.globals Sample.bar_before)))
  /\ requests
       (events (OnTick defaults (Sample.long_tick (Sample.bar + 5) [0.0020] [] [] [] None)
                  (Sample.globals Sample.bar_before)))
     = [Buy 0.1 1.2002 1.195 (1.2002 + 100 * 0.0001) "Trend EA Long"].
Proof.
  split; [|reflexivity].
  apply (X6_macd_values_unused defaults
           (Sample.long_tick (Sample.bar + 5) [0.0020] [] [] [] None)
           (Sample.globals Sample.bar_before)
           [-0.0012; -0.0010; 0.0008] [0.0009; 0.0009; 0.0008]);
    try reflexivity; discriminate.
Defined.

(** ** The trailing stop, once moved *)

(** X7.  The trailing stop is idempotent.  After a tick on which a position
    was managed, with the position's stop-loss as the tick's modify request
    (if any) left it, another tick on the same market data sends no modify
    request, whatever the last processed bar is by then. *)
Theorem X7_trailing_stop_idempotent (inp : Inputs) (t : Terminal) (g : Globals)
    (p : Position) (b : Z) :
  managed inp (with_position (Some p) t) g p ->
  count is_modify
    (events (OnTick inp
               (with_position
                  (Some (moved p (events (OnTick inp (with_position (Some p) t) g)))) t)
               (set_prevBarTime b g))) = 0%nat.
Proof.
  intros M.
  set (p' := moved p (events (OnTick inp (with_position (Some p) t) g))).
  assert (E : POSITION_SL p'
              = if trail_signal inp (with_position (Some p) t) g p
                then newStop inp (with_position (Some p) t) g (POSITION_TYPE p)
                else POSITION_SL p).
  { unfold p'. cbn [moved POSITION_SL]. rewrite stop_after_modifies.
    rewrite (managed_modifies inp _ g p M).
    destruct (trail_signal inp (with_position (Some p) t) g p); reflexivity. }
  unfold count.
  destruct (modifies_of_tick inp (with_position (Some p') t) (set_prevBarTime b g) p'
              eq_refl) as [->|(T & _)]; [reflexivity|].
  exfalso. revert T E. unfold trail_signal, newStop, currentATR, atrValue.
  change (POSITION_TYPE p') with (POSITION_TYPE p).
  cbn [with_position SYMBOL_BID SYMBOL_ASK CopyBuffer set_prevBarTime atrHandle].
  destruct (POSITION_TYPE p); intros T E.
  - destruct (PrimFloat.ltb (POSITION_SL p) _) eqn:L in E; rewrite E in T.
    + rewrite FloatOrder.ltb_irrefl in T. discriminate.
    + congruence.
  - destruct (PrimFloat.ltb _ (POSITION_SL p)) eqn:L in E; rewrite E in T.
    + rewrite FloatOrder.ltb_irrefl in T. discriminate.
    + congruence.
Qed.

(** X7 after the tick that moved the stop of a long from 1.19 to 1.194, on
    the next bar with the same bid and ATR. *)
Lemma X7_trailing_stop_idempotent_witness :
  managed defaults (with_position (Some Sample.old_long)
                      (Sample.rsi_cross_tick Sample.old_long))
    (Sample.globals Sample.bar_before) Sample.old_long
  /\ POSITION_SL
       (moved Sample.old_long
          (events (OnTick defaults
                     (with_position (Some Sample.old_long)
                        (Sample.rsi_cross_tick Sample.old_long))
                     (Sample.globals Sample.bar_before)))) = 1.194
  /\ count is_modify
       (events (OnTick defaults
                  (with_position
                     (Some (moved Sample.old_long
                              (events (OnTick defaults
                                         (with_position (Some Sample.old_long)
                                            (Sample.rsi_cross_tick Sample.old_long))
                                         (Sample.globals Sample.bar_before)))))
                     (Sample.rsi_cross_tick Sample.old_long))
                  (set_prevBarTime Sample.bar_before (Sample.globals Sample.bar_before))))
     = 0%nat.
Proof.
  assert (M : managed defaults (with_position (Some Sample.old_long)
                                  (Sample.rsi_cross_tick Sample.old_long))
                (Sample.globals Sample.bar_before) Sample.old_long)
    by (repeat split; reflexivity).
  split; [exact M|]. split; [reflexivity|].
  exact (X7_trailing_stop_idempotent defaults (Sample.rsi_cross_tick Sample.old_long)
           (Sample.globals Sample.bar_before) Sample.old_long Sample.bar_before M).
Defined.

(** ** The daily handles *)

Lemma Manage_releases (inp : Inputs) (t : Terminal) (p : Position) (atr : float) :
  filter is_release (events (Manage inp t p atr))
  = if daily_ok inp t
    then [IndicatorRelease (trendHandleHigher inp t);
          IndicatorRelease (rsiHandleHigher inp t)]
    else [].
Proof.
  unfold daily_ok, Manage, exit_or_hold, when. rewrite !read3_spec.
  destruct (delivered 3 (trendValueHigher inp t)); [|reflexivity].
  destruct (delivered 3 (rsiValueHigher inp t)); [|reflexivity].
  cbn [bind andb].
  destruct (POSITION_TYPE p); case_conditions; reflexivity.
Qed.

Lemma Entry_releases (inp : Inputs) (t : Terminal) (trend0 trend1 rsi0 rsi1 : float) :
  filter is_release (events (Entry inp t trend0 trend1 rsi0 rsi1)) = [].
Proof. unfold Entry, when. case_conditions; reflexivity. Qed.

Lemma OnTick_releases (inp : Inputs) (t : Terminal) (g : Globals) :
  filter is_release (events (OnTick inp t g))
  = if hourly_ok t g && new_bar t g && daily_ok inp t
    then match PositionSelect t with
         | Some _ => [IndicatorRelease (trendHandleHigher inp t);
                      IndicatorRelease (rsiHandleHigher inp t)]
         | None => []
         end
    else [].
Proof.
  destruct (hourly_ok t g) eqn:H.
  - rewrite (OnTick_hourly_ok inp t g H). cbn [events fst andb].
    rewrite filter_app.
    assert (L : filter is_release (hourly_log t g) = []).
    { unfold hourly_log. rewrite !read3_spec.
      repeat match goal with |- context [delivered ?n ?a] => destruct (delivered n a) end;
        reflexivity. }
    rewrite L. cbn [app]. unfold decide, new_bar.
    destruct (iTime t PERIOD_H1 0 =? prevBarTime g)%Z; [reflexivity|]. cbn [negb andb].
    rewrite events_bind, Entry_status, filter_app, Entry_releases. cbn [app].
    rewrite events_bind, filter_app.
    destruct (PositionSelect t) as [p|].
    + rewrite Manage_releases.
      destruct (daily_ok inp t);
        destruct (status (Manage inp t p (currentATR t g))); reflexivity.
    + destruct (daily_ok inp t); reflexivity.
  - unfold hourly_ok in H. unfold OnTick. rewrite index0_spec, !read3_spec.
    destruct (delivered 1 (atrValue t g)); [|reflexivity].
    destruct (delivered 3 (trendValue t g)); [|reflexivity].
    destruct (delivered 3 (rsiValue t g)); [|reflexivity].
    destruct (delivered 3 (macdMain t g)); [|reflexivity].
    destruct (delivered 3 (macdSignal t g)); [discriminate|reflexivity].
Qed.

(** X8.  A tick releases the two daily handles it obtained (trend EMA, then
    RSI) when its position management runs to the end, and these are all its
    releases; on a tick that a short daily series stops they are not
    released, and a tick that does not reach the position management releases
    nothing. *)
Theorem X8_daily_handles_released (inp : Inputs) (t : Terminal) (g : Globals)
    (p : Position) :
  PositionSelect t = Some p -> hourly_ok t g = true -> new_bar t g = true ->
  (daily_ok inp t = true ->
   status (OnTick inp t g) = Done (set_prevBarTime (iTime t PERIOD_H1 0) g)
   /\ filter is_release (events (OnTick inp t g))
      = [IndicatorRelease (iMA t PERIOD_D1 (InpTrendPeriod inp));
         IndicatorRelease (iRSI t PERIOD_D1 (InpRSIPeriod inp))])
  /\ (daily_ok inp t = false ->
      status (OnTick inp t g) = ArrayOutOfRange
      /\ filter is_release (events (OnTick inp t g)) = []).
Proof.
  intros P H N. rewrite OnTick_releases, OnTick_status. unfold tick_status.
  rewrite H, N, P. split; intros ->; split; reflexivity.
Qed.

(** X8 with the daily series delivered, and with the daily RSI series
    empty. *)
Lemma X8_daily_handles_released_witness :
  filter is_release
    (events (OnTick defaults (Sample.rsi_cross_tick Sample.old_long)
               (Sample.globals Sample.bar_before)))
  = [IndicatorRelease 14; IndicatorRelease 15]
  /\ filter is_release
       (events (OnTick defaults
                  (Sample.long_tick (Sample.bar + 5) [0.0020] [1.09; 1.11; 1.12] [] [1.08]
                     (Some Sample.old_long))
                  (Sample.globals Sample.bar_before)))
     = [].
Proof.
  split.
  - exact (proj2 (proj1 (X8_daily_handles_released defaults
                           (Sample.rsi_cross_tick Sample.old_long)
                           (Sample.globals Sample.bar_before) Sample.old_long
                           eq_refl eq_refl eq_refl) eq_refl)).
  - exact (proj2 (proj2 (X8_daily_handles_released defaults
                           (Sample.long_tick (Sample.bar + 5) [0.0020] [1.09; 1.11; 1.12]
                              [] [1.08] (Some Sample.old_long))
                           (Sample.globals Sample.bar_before) Sample.old_long
                           eq_refl eq_refl eq_refl) eq_refl)).
Defined.

(** ** What a request needs *)

(** X9.  No request without its reason.  An open-long is only sent on a new
    bar on which the long signal holds, an open-short on one on which the
    short signal holds; a close only for a selected position that was held
    for the minimum duration and on which the RSI reversal or the trend exit
    fired; and with no position selected nothing is closed or modified. *)
Theorem X9_requests_are_justified (inp : Inputs) (t : Terminal) (g : Globals) :
  (existsb is_buy (events (OnTick inp t g)) = true ->
   new_bar t g = true /\ long_signal inp t g = true)
  /\ (existsb is_sell (events (OnTick inp t g)) = true ->
      new_bar t g = true /\ short_signal inp t g = true)
  /\ (In PositionClose (events (OnTick inp t g)) ->
      exists p, PositionSelect t = Some p
                /\ new_bar t g = true
                /\ (posDuration t p >=? InpMinHoldDuration inp)%Z = true
                /\ rsi_exit inp t (POSITION_TYPE p) || trend_exit inp t (POSITION_TYPE p)
                   = true)
  /\ (PositionSelect t = None ->
      count is_close (events (OnTick inp t g)) = 0%nat
      /\ count is_modify (events (OnTick inp t g)) = 0%nat).
Proof.
  assert (E : hourly_ok t g && new_bar t g = false ->
              requests (events (OnTick inp t g)) = [])
    by (intros HN; rewrite OnTick_requests; unfold tick_requests; rewrite HN; reflexivity).
  split; [|split; [|split]].
  - rewrite existsb_filter. intros B.
    destruct (hourly_ok t g && new_bar t g) eqn:HN.
    + apply andb_prop in HN. destruct HN as (H & N). split; [exact N|].
      rewrite (proj1 (tick_entries inp t g H N)) in B.
      destruct (long_signal inp t g); [reflexivity | discriminate].
    + rewrite <- (filter_requests is_buy (events (OnTick inp t g))) in B
        by auto with requests.
      rewrite (E eq_refl) in B. discriminate.
  - rewrite existsb_filter. intros B.
    destruct (hourly_ok t g && new_bar t g) eqn:HN.
    + apply andb_prop in HN. destruct HN as (H & N). split; [exact N|].
      rewrite (proj2 (tick_entries inp t g H N)) in B.
      destruct (short_signal inp t g); [reflexivity | discriminate].
    + rewrite <- (filter_requests is_sell (events (OnTick inp t g))) in B
        by auto with requests.
      rewrite (E eq_refl) in B. discriminate.
  - intros I. destruct (PositionSelect t) as [p|] eqn:P.
    + assert (M : managed inp t g p)
        by (apply (managed_iff inp t g p P PositionClose); auto).
      exists p. split; [reflexivity|]. split; [apply M|].
      assert (C : In PositionClose (filter is_close (events (OnTick inp t g))))
        by (apply filter_In; split; [exact I | reflexivity]).
      pose proof (managed_closes inp t g p M) as K. unfold count, held in K.
      destruct (filter is_close (events (OnTick inp t g))); [destruct C|].
      destruct (posDuration t p >=? InpMinHoldDuration inp)%Z; [|discriminate].
      split; [reflexivity|].
      destruct (rsi_exit inp t (POSITION_TYPE p)), (trend_exit inp t (POSITION_TYPE p));
        try reflexivity; discriminate.
    + exfalso.
      assert (R : In PositionClose (requests (events (OnTick inp t g))))
        by (apply filter_In; split; [exact I | reflexivity]).
      rewrite OnTick_requests in R. unfold tick_requests in R. rewrite P in R.
      destruct (hourly_ok t g && new_bar t g); [|destruct R].
      rewrite app_nil_r in R.
      assert (F : In PositionClose (filter is_close (entry_requests inp t g)))
        by (apply filter_In; auto).
      rewrite (proj1 (proj2 (proj2 (entry_requests_kinds inp t g)))) in F. destruct F.
  - intros P.
    rewrite (count_requests is_close), (count_requests is_modify) by auto with requests.
    rewrite OnTick_requests. unfold tick_requests. rewrite P.
    destruct (hourly_ok t g && new_bar t g); [|split; reflexivity].
    rewrite app_nil_r. unfold count.
    destruct (entry_requests_kinds inp t g) as (_ & _ & -> & ->). split; reflexivity.
Qed.

(** X9 on the close of a long held two hours, the daily RSI crossing 50. *)
Lemma X9_requests_are_justified_witness :
  In PositionClose
    (events (OnTick defaults (Sample.rsi_cross_tick Sample.old_long)
               (Sample.globals Sample.bar_before)))
  /\ exists p,
       PositionSelect (Sample.rsi_cross_tick Sample.old_long) = Some p
       /\ new_bar (Sample.rsi_cross_tick Sample.old_long)
            (Sample.globals Sample.bar_before) = true
       /\ (posDuration (Sample.rsi_cross_tick Sample.old_long) p
           >=? InpMinHoldDuration defaults)%Z = true
       /\ rsi_exit defaults (Sample.rsi_cross_tick Sample.old_long) (POSITION_TYPE p)
          || trend_exit defaults (Sample.rsi_cross_tick Sample.old_long) (POSITION_TYPE p)
          = true.
Proof.
  assert (I : In PositionClose
                (events (OnTick defaults (Sample.rsi_cross_tick Sample.old_long)
                           (Sample.globals Sample.bar_before))))
    by (vm_compute; tauto).
  split; [exact I|].
  exact (proj1 (proj2 (proj2 (X9_requests_are_justified defaults
           (Sample.rsi_cross_tick Sample.old_long) (Sample.globals Sample.bar_before)))) I).
Defined.

(** ** Samples that are not numbers *)

Module FloatNaN.

Lemma nan_spec x : is_nan x = true -> Prim2SF x = S754_nan.
Proof.
  unfold is_nan. rewrite eqb_spec. unfold SFeqb, SFcompare.
  destruct (Prim2SF x) as [s|s| |s m e]; try reflexivity;
    try (destruct s; discriminate).
  rewrite Z.compare_refl. change (Pos.compare_cont Eq) with Pos.compare.
  rewrite Pos.compare_refl. destruct s; discriminate.
Qed.

Lemma spec_nan x : Prim2SF x = S754_nan -> is_nan x = true.
Proof. intros E. unfold is_nan. rewrite eqb_spec, E. reflexivity. Qed.

Lemma ltb_nan_l x y : is_nan x = true -> (x <? y) = false.
Proof. intros N. rewrite ltb_spec, (nan_spec x N). reflexivity. Qed.

Lemma ltb_nan_r x y : is_nan y = true -> (x <? y) = false.
Proof.
  intros N. rewrite ltb_spec, (nan_spec y N). destruct (Prim2SF x); reflexivity.
Qed.

Lemma leb_nan_l x y : is_nan x = true -> (x <=? y) = false.
Proof. intros N. rewrite leb_spec, (nan_spec x N). reflexivity. Qed.

Lemma leb_nan_r x y : is_nan y = true -> (x <=? y) = false.
Proof.
  intros N. rewrite leb_spec, (nan_spec y N). destruct (Prim2SF x); reflexivity.
Qed.

Lemma mul_nan_r x y : is_nan y = true -> is_nan (x * y) = true.
Proof.
  intros N. apply spec_nan. rewrite mul_spec, (nan_spec y N).
  destruct (Prim2SF x); reflexivity.
Qed.

Lemma sub_nan_r x y : is_nan y = true -> is_nan (x - y) = true.
Proof.
  intros N. apply spec_nan. rewrite sub_spec, (nan_spec y N).
  destruct (Prim2SF x); reflexivity.
Qed.

Lemma add_nan_r x y : is_nan y = true -> is_nan (x + y) = true.
Proof.
  intros N. apply spec_nan. rewrite add_spec, (nan_spec y N).
  destruct (Prim2SF x); reflexivity.
Qed.

End FloatNaN.

Lemma nan_no_signal (inp : Inputs) (t : Terminal) (g : Globals) :
  is_nan (sample (trendValue t g) 0) || is_nan (sample (trendValue t g) 1)
  || is_nan (sample (rsiValue t g) 0) || is_nan (sample (rsiValue t g) 1) = true ->
  long_signal inp t g = false /\ short_signal inp t g = false.
Proof.
  intros N. unfold long_signal, short_signal.
  repeat (apply orb_prop in N; destruct N as [N|N]).
  - rewrite (FloatNaN.ltb_nan_r _ _ N), (FloatNaN.ltb_nan_l _ _ N). split; reflexivity.
  - rewrite (FloatNaN.ltb_nan_r _ _ N), (FloatNaN.ltb_nan_l _ _ N). split; reflexivity.
  - rewrite (FloatNaN.ltb_nan_r _ _ N), (FloatNaN.ltb_nan_l _ _ N).
    split; [rewrite andb_false_r | rewrite andb_false_r]; reflexivity.
  - rewrite (FloatNaN.leb_nan_r _ _ N), (FloatNaN.leb_nan_l _ _ N).
    split; apply andb_false_r.
Qed.

Lemma nan_no_trail (inp : Inputs) (t : Terminal) (g : Globals) (p : Position) :
  is_nan (currentATR t g) = true -> trail_signal inp t g p = false.
Proof.
  intros N. unfold trail_signal, newStop.
  destruct (POSITION_TYPE p).
  - apply FloatNaN.ltb_nan_r, FloatNaN.sub_nan_r, FloatNaN.mul_nan_r, N.
  - apply FloatNaN.ltb_nan_l, FloatNaN.add_nan_r, FloatNaN.mul_nan_r, N.
Qed.

(** X10.  A sample that is not a number gives no signal.  When one of the
    four hourly samples the entry checks compare (trend EMA 0 and 1, RSI 0
    and 1) is NaN, the tick requests no entry; when the ATR is NaN, the
    trailing candidate is NaN and the tick requests no stop modification. *)
Theorem X10_nan_gives_no_signal (inp : Inputs) (t : Terminal) (g : Globals) :
  (is_nan (sample (trendValue t g) 0) || is_nan (sample (trendValue t g) 1)
   || is_nan (sample (rsiValue t g) 0) || is_nan (sample (rsiValue t g) 1) = true ->
   count is_entry (events (OnTick inp t g)) = 0%nat)
  /\ (is_nan (sample (atrValue t g) 0) = true ->
      count is_modify (events (OnTick inp t g)) = 0%nat).
Proof.
  split; intros N.
  - destruct (nan_no_signal inp t g N) as (L & S).
    rewrite (count_requests is_entry) by auto with requests.
    rewrite OnTick_requests. unfold tick_requests, entry_requests. rewrite L, S.
    destruct (hourly_ok t g && new_bar t g); [|reflexivity]. cbn [app].
    destruct (PositionSelect t) as [p|]; [destruct (daily_ok inp t)|]; try reflexivity.
    unfold manage_requests, exit_requests.
    destruct (rsi_exit inp t (POSITION_TYPE p)), (trend_exit inp t (POSITION_TYPE p)),
      (held inp t p), (trail_signal inp t g p); reflexivity.
  - unfold count. destruct (PositionSelect t) as [p|] eqn:P.
    + destruct (modifies_of_tick inp t g p P) as [->|(T & _)]; [reflexivity|].
      rewrite (nan_no_trail inp t g p N) in T. discriminate.
    + rewrite <- (filter_requests is_modify) by auto with requests.
      rewrite OnTick_requests. unfold tick_requests. rewrite P.
      destruct (hourly_ok t g && new_bar t g); [|reflexivity].
      rewrite app_nil_r.
      rewrite (proj2 (proj2 (proj2 (entry_requests_kinds inp t g)))). reflexivity.
Qed.

(** X10 with the ATR not a number on the tick that closes the long of the
    daily RSI crossing: the close, and no modify. *)
Lemma X10_nan_gives_no_signal_witness :
  is_nan (sample (atrValue
                    (Sample.quiet_tick (Sample.bar + 5) [nan] [1.09; 1.11; 1.12]
                       [51; 49; 48] [1.08] (Some Sample.old_long))
                    (Sample.globals Sample.bar_before)) 0) = true
  /\ requests
       (events (OnTick defaults
                  (Sample.quiet_tick (Sample.bar + 5) [nan] [1.09; 1.11; 1.12]
                     [51; 49; 48] [1.08] (Some Sample.old_long))
                  (Sample.globals Sample.bar_before))) = [PositionClose]
  /\ count is_modify
       (events (OnTick defaults
                  (Sample.quiet_tick (Sample.bar + 5) [nan] [1.09; 1.11; 1.12]
                     [51; 49; 48] [1.08] (Some Sample.old_long))
                  (Sample.globals Sample.bar_before))) = 0%nat.
Proof.
  split; [reflexivity|]. split; [reflexivity|].
  exact (proj2 (X10_nan_gives_no_signal defaults
                  (Sample.quiet_tick (Sample.bar + 5) [nan] [1.09; 1.11; 1.12]
                     [51; 49; 48] [1.08] (Some Sample.old_long))
                  (Sample.globals Sample.bar_before)) eq_refl).
Defined.

(** ** Initialisation *)

